(** * FaceFrame: the per-frame decision state machine of [FaceFrameGuide]

    A shallow embedding of [src/FaceFrame.jsx].  The component keeps eight
    React refs across frames; every run of [detect] that gets past its
    guards reads the detector's predictions, updates the refs and calls up
    to four host callbacks.

    Modelling choices.
    - A JavaScript number that holds a measurement (pixel coordinates,
      ratios, confidences, the calibrated baseline) is an IEEE-754 binary64
      value: Rocq's primitive [float], with its own comparisons, so that
      NaN, infinities and signed zeros behave as they do in the engine.
    - The three streak counters and the two frame thresholds are integers
      ([Z]).  The counters only ever hold [0] or a previous value plus one,
      which a binary64 number represents exactly below 2^53 frames.
    - [Math.hypot] and the exponentiation operator are only specified by
      ECMAScript up to an implementation-approximated result, so they are
      operations of the class [NumberOps]; every theorem holds for every
      instance, and [Binary64Ops] is the instance used in the examples.
    - [detect] waits for the detector once (line 156) and touches no ref
      before that; what follows runs without interruption.  The model is
      that of one such run: the guards of lines 120-145, then the refs as
      they are when the predictions arrive.  The two locals initialised at
      lines 153-154 are assigned again on every path before they are read.
    - A ref is a field of the record [Refs]; [detect] passes the record
      along explicitly.  A call [onX?.(v)] is logged as a [Call], in the
      order in which the source reaches the call sites (an absent handler
      turns the call into a no-op; the ref update that follows it still
      happens). *)

From Stdlib Require Import ZArith List Bool Floats Lia.
Import ListNotations.

Set Warnings "-inexact-float".

(** ** JavaScript numbers *)

Module Num.

(** [a >= b] and [a > b] on numbers; both are false when an operand is NaN. *)
Definition ge (a b : float) : bool := PrimFloat.leb b a.
Definition gt (a b : float) : bool := PrimFloat.ltb b a.
Definition lt (a b : float) : bool := PrimFloat.ltb a b.
Definition le (a b : float) : bool := PrimFloat.leb a b.

(** [!v] for a number [v]: true for [+0], [-0] and NaN. *)
Definition falsy (v : float) : bool :=
  PrimFloat.eqb v 0%float || PrimFloat.is_nan v.

Definition is_neg_zero (v : float) : bool :=
  match PrimFloat.classify v with NZero => true | _ => false end.

Definition is_pos_zero (v : float) : bool :=
  match PrimFloat.classify v with PZero => true | _ => false end.

(** [Math.min(...xs)]: NaN as soon as one argument is NaN, [+Infinity] for
    no argument, and [-0] below [+0]. *)
Definition min_step (lowest number : float) : float :=
  if is_neg_zero number && is_pos_zero lowest then number
  else if PrimFloat.ltb number lowest then number
  else lowest.

Definition Math_min (xs : list float) : float :=
  if existsb PrimFloat.is_nan xs then nan
  else fold_left min_step xs infinity.

(** [Math.max(...xs)]: NaN as soon as one argument is NaN, [-Infinity] for
    no argument, and [+0] above [-0]. *)
Definition max_step (highest number : float) : float :=
  if is_pos_zero number && is_neg_zero highest then number
  else if PrimFloat.ltb highest number then number
  else highest.

Definition Math_max (xs : list float) : float :=
  if existsb PrimFloat.is_nan xs then nan
  else fold_left max_step xs neg_infinity.

(** The number that holds a count (an array length, a loop counter);
    exact below 2^53, and an array has fewer than 2^32 elements. *)
Definition of_nat (n : nat) : float :=
  PrimFloat.of_uint63 (Uint63.of_Z (Z.of_nat n)).

End Num.

(** The two number operations whose result ECMAScript leaves to the
    implementation. *)
Class NumberOps : Type := {
  (** [Math.hypot(dx, dy)] *)
  Math_hypot : float -> float -> float;
  (** [b ** 2] *)
  pow2 : float -> float
}.

(** Each operation rounded once per arithmetic step. *)
Definition Binary64Ops : NumberOps := {|
  Math_hypot := fun dx dy => PrimFloat.sqrt (dx * dx + dy * dy)%float;
  pow2 := fun b => (b * b)%float
|}.

(** ** Data *)

Module Keypoint.
Record t : Type := mk { x : float; y : float }.
End Keypoint.

(** One entry of [predictions]: the landmark list and the optional
    [faceInViewConfidence] ([None] when the field is null or undefined). *)
Record Face : Type := {
  keypoints : list Keypoint.t;
  faceInViewConfidence : option float
}.

(** The props of the component that [detect] reads ([previewFlip] is never
    read; the four callbacks are the constructors of [Call]). *)
Record Props : Type := {
  minFramesIn : Z;
  minFramesOut : Z;
  boxInsideRequired : bool;
  percentInsideRequired : float;
  ellipseMargin : float;
  minEyeRatio : float;
  maxEyeRatio : float
}.

Definition defaultProps : Props := {|
  minFramesIn := 6;
  minFramesOut := 3;
  boxInsideRequired := true;
  percentInsideRequired := 0.95;
  ellipseMargin := 1.0;
  minEyeRatio := 0.08;
  maxEyeRatio := 0.18
|}.

Inductive DistanceStatus : Type := ok | tooFar | tooClose.

Definition DistanceStatus_eqb (a b : DistanceStatus) : bool :=
  match a, b with
  | ok, ok | tooFar, tooFar | tooClose, tooClose => true
  | _, _ => false
  end.

(** The refs that survive from one frame to the next. *)
Record Refs : Type := {
  lastGoodVisualRef : bool;
  lastDistanceStatusRef : option DistanceStatus;
  lastCaptureAllowedRef : bool;
  goodStreakRef : Z;
  badStreakRef : Z;
  baselineEyePxRef : option float;
  calibratingStreakRef : Z;
  lostStreakRef : Z
}.

(** The values the refs are created with (lines 26-39). *)
Definition initialRefs : Refs := {|
  lastGoodVisualRef := false;
  lastDistanceStatusRef := None;
  lastCaptureAllowedRef := false;
  goodStreakRef := 0;
  badStreakRef := 0;
  baselineEyePxRef := None;
  calibratingStreakRef := 0;
  lostStreakRef := 0
|}.

Definition CALIBRATE_MIN_STREAK : Z := 8.
Definition FAR_FACTOR : float := 0.85.
Definition CLOSE_FACTOR : float := 1.2.
Definition LOST_RESET_STREAK : Z := 12.

(** Assignments to one ref. *)
Definition set_lastGoodVisual (v : bool) (r : Refs) : Refs :=
  {| lastGoodVisualRef := v;
     lastDistanceStatusRef := lastDistanceStatusRef r;
     lastCaptureAllowedRef := lastCaptureAllowedRef r;
     goodStreakRef := goodStreakRef r;
     badStreakRef := badStreakRef r;
     baselineEyePxRef := baselineEyePxRef r;
     calibratingStreakRef := calibratingStreakRef r;
     lostStreakRef := lostStreakRef r |}.

Definition set_lastDistanceStatus (v : option DistanceStatus) (r : Refs) : Refs :=
  {| lastGoodVisualRef := lastGoodVisualRef r;
     lastDistanceStatusRef := v;
     lastCaptureAllowedRef := lastCaptureAllowedRef r;
     goodStreakRef := goodStreakRef r;
     badStreakRef := badStreakRef r;
     baselineEyePxRef := baselineEyePxRef r;
     calibratingStreakRef := calibratingStreakRef r;
     lostStreakRef := lostStreakRef r |}.

Definition set_lastCaptureAllowed (v : bool) (r : Refs) : Refs :=
  {| lastGoodVisualRef := lastGoodVisualRef r;
     lastDistanceStatusRef := lastDistanceStatusRef r;
     lastCaptureAllowedRef := v;
     goodStreakRef := goodStreakRef r;
     badStreakRef := badStreakRef r;
     baselineEyePxRef := baselineEyePxRef r;
     calibratingStreakRef := calibratingStreakRef r;
     lostStreakRef := lostStreakRef r |}.

Definition set_goodStreak (v : Z) (r : Refs) : Refs :=
  {| lastGoodVisualRef := lastGoodVisualRef r;
     lastDistanceStatusRef := lastDistanceStatusRef r;
     lastCaptureAllowedRef := lastCaptureAllowedRef r;
     goodStreakRef := v;
     badStreakRef := badStreakRef r;
     baselineEyePxRef := baselineEyePxRef r;
     calibratingStreakRef := calibratingStreakRef r;
     lostStreakRef := lostStreakRef r |}.

Definition set_badStreak (v : Z) (r : Refs) : Refs :=
  {| lastGoodVisualRef := lastGoodVisualRef r;
     lastDistanceStatusRef := lastDistanceStatusRef r;
     lastCaptureAllowedRef := lastCaptureAllowedRef r;
     goodStreakRef := goodStreakRef r;
     badStreakRef := v;
     baselineEyePxRef := baselineEyePxRef r;
     calibratingStreakRef := calibratingStreakRef r;
     lostStreakRef := lostStreakRef r |}.

Definition set_baselineEyePx (v : option float) (r : Refs) : Refs :=
  {| lastGoodVisualRef := lastGoodVisualRef r;
     lastDistanceStatusRef := lastDistanceStatusRef r;
     lastCaptureAllowedRef := lastCaptureAllowedRef r;
     goodStreakRef := goodStreakRef r;
     badStreakRef := badStreakRef r;
     baselineEyePxRef := v;
     calibratingStreakRef := calibratingStreakRef r;
     lostStreakRef := lostStreakRef r |}.

Definition set_calibratingStreak (v : Z) (r : Refs) : Refs :=
  {| lastGoodVisualRef := lastGoodVisualRef r;
     lastDistanceStatusRef := lastDistanceStatusRef r;
     lastCaptureAllowedRef := lastCaptureAllowedRef r;
     goodStreakRef := goodStreakRef r;
     badStreakRef := badStreakRef r;
     baselineEyePxRef := baselineEyePxRef r;
     calibratingStreakRef := v;
     lostStreakRef := lostStreakRef r |}.

Definition set_lostStreak (v : Z) (r : Refs) : Refs :=
  {| lastGoodVisualRef := lastGoodVisualRef r;
     lastDistanceStatusRef := lastDistanceStatusRef r;
     lastCaptureAllowedRef := lastCaptureAllowedRef r;
     goodStreakRef := goodStreakRef r;
     badStreakRef := badStreakRef r;
     baselineEyePxRef := baselineEyePxRef r;
     calibratingStreakRef := calibratingStreakRef r;
     lostStreakRef := v |}.

(** A call of a host callback, with its argument; [onKeypointsDetected]
    receives [None] for the source's [null]. *)
Inductive Call : Type :=
| onFaceStatusChange (isGood : bool)
| onFaceDistanceChange (status : DistanceStatus)
| onKeypointsDetected (kps : option (list Keypoint.t))
| onCaptureAllowedChange (allowed : bool).

(** What one run of [detect] is given: whether the detector, the video
    element and the canvas are all there, the size of the video frame (which
    lines 133-139 give to the canvas before its size is read), whether the
    canvas hands out a 2d context, and the detector's answer. *)
Record Frame : Type := {
  mounted : bool;
  videoWidth : float;
  videoHeight : float;
  hasContext : bool;
  predictions : list Face
}.

(** ** Geometry (lines 78-116) *)

Section Geometry.

Context {ops : NumberOps}.

Definition isInsideEllipse (x y cx cy rx ry : float) : bool :=
  Num.le (pow2 (x - cx) / pow2 rx + pow2 (y - cy) / pow2 ry)%float 1%float.

Record BoundingBox : Type := {
  minX : float; maxX : float; minY : float; maxY : float
}.

Definition getBoundingBox (kps : list Keypoint.t) : BoundingBox :=
  let xs := map Keypoint.x kps in
  let ys := map Keypoint.y kps in
  {| minX := Num.Math_min xs;
     maxX := Num.Math_max xs;
     minY := Num.Math_min ys;
     maxY := Num.Math_max ys |}.

Definition corners (b : BoundingBox) : list Keypoint.t :=
  [ Keypoint.mk (minX b) (minY b);
    Keypoint.mk (maxX b) (minY b);
    Keypoint.mk (minX b) (maxY b);
    Keypoint.mk (maxX b) (maxY b) ].

Definition isBoundingBoxInsideEllipse
    (kps : list Keypoint.t) (cx cy rx ry : float) : bool :=
  let b := getBoundingBox kps in
  forallb (fun c => isInsideEllipse (Keypoint.x c) (Keypoint.y c) cx cy rx ry)
          (corners b).

(** The loop of [fractionInsideEllipse]: [inside] after the keypoints
    [kps] have been visited. *)
Definition countInside
    (kps : list Keypoint.t) (cx cy rx ry : float) : nat :=
  fold_left
    (fun inside k =>
       if isInsideEllipse (Keypoint.x k) (Keypoint.y k) cx cy rx ry
       then (inside + 1)%nat else inside)
    kps 0%nat.

Definition fractionInsideEllipse
    (kps : list Keypoint.t) (cx cy rx ry : float) : float :=
  (Num.of_nat (countInside kps cx cy rx ry) / Num.of_nat (length kps))%float.

Definition getDistance (p1 p2 : Keypoint.t) : float :=
  let dx := (Keypoint.x p1 - Keypoint.x p2)%float in
  let dy := (Keypoint.y p1 - Keypoint.y p2)%float in
  Math_hypot dx dy.

End Geometry.

(** ** One frame (lines 119-291) *)

(** The locals of the branch taken when a face was predicted. *)
Record FaceLocals : Type := {
  eyeDistance : float;
  relativeEyeDistance : float;
  boxOk : bool;
  fracOk : bool;
  confidenceOk : bool;
  distanceStatus : DistanceStatus
}.

(** The condition of line 192, which line 229 evaluates again. *)
Definition geometryOk (f : FaceLocals) : bool :=
  boxOk f && fracOk f && confidenceOk f.

(** What a run of [detect] that reached the end leaves behind: the refs,
    the callbacks it called, the two locals [isGoodNow] (which picks the
    stroke colour) and [captureAllowed], and the locals of the face
    branch when that branch ran. *)
Record Result : Type := {
  refs : Refs;
  calls : list Call;
  isGoodNow : bool;
  captureAllowed : bool;
  seen : option FaceLocals
}.

(** [Skipped]: one of the early returns of lines 120-145, before any ref is
    read or written.  [Threw]: [keypoints[33]] or [keypoints[263]] is
    undefined and [getDistance] raises a TypeError at line 165, again before
    any ref is written. *)
Inductive Outcome : Type :=
| Skipped
| Threw
| Processed (res : Result).

Section Detect.

Context {ops : NumberOps}.
Variable p : Props.

Definition centerX (fr : Frame) : float := (videoWidth fr / 2)%float.
Definition centerY (fr : Frame) : float := (videoHeight fr / 2.5)%float.
Definition radiusX (fr : Frame) : float :=
  (videoWidth fr * 0.3 * ellipseMargin p)%float.
Definition radiusY (fr : Frame) : float :=
  (videoHeight fr * 0.31 * ellipseMargin p)%float.

(** Lines 192-203: the calibration counters. *)
Definition calibrate (geomOk : bool) (eyeDist : float) (r : Refs) : Refs :=
  if geomOk then
    let r1 := set_calibratingStreak (calibratingStreakRef r + 1) r in
    let r2 := set_lostStreak 0 r1 in
    match baselineEyePxRef r2 with
    | None =>
        if (CALIBRATE_MIN_STREAK <=? calibratingStreakRef r2)%Z
        then set_baselineEyePx (Some eyeDist) r2
        else r2
    | Some _ => r2
    end
  else set_calibratingStreak 0 r.

(** Lines 205-215: the distance status of a face. *)
Definition classifyDistance
    (baseline : option float) (eyeDist relEyeDist : float) : DistanceStatus :=
  match baseline with
  | Some b =>
      if Num.lt eyeDist (b * FAR_FACTOR)%float then tooFar
      else if Num.gt eyeDist (b * CLOSE_FACTOR)%float then tooClose
      else ok
  | None =>
      if Num.lt relEyeDist (minEyeRatio p) then tooFar
      else if Num.gt relEyeDist (maxEyeRatio p) then tooClose
      else ok
  end.

(** [status !== lastDistanceStatusRef.current] *)
Definition statusDiffers (status : DistanceStatus) (last : option DistanceStatus) : bool :=
  match last with
  | None => true
  | Some s => negb (DistanceStatus_eqb status s)
  end.

(** Lines 217-220 and 254-257: report the status when it is not the one
    reported last. *)
Definition reportDistance (status : DistanceStatus) (r : Refs) : Refs * list Call :=
  if statusDiffers status (lastDistanceStatusRef r)
  then (set_lastDistanceStatus (Some status) r, [onFaceDistanceChange status])
  else (r, []).

(** Lines 222-247 without the [onKeypointsDetected] call that ends both
    branches: the two streaks and the locals [isGoodNow] and
    [captureAllowed]. *)
Definition updateStreaks
    (status : DistanceStatus) (geomOk : bool) (r : Refs) : Refs * bool * bool :=
  if negb (DistanceStatus_eqb status ok) then
    let r1 := set_goodStreak 0 r in
    let r2 := set_badStreak (badStreakRef r1 + 1) r1 in
    (r2, false, false)
  else
    let good := geomOk in
    let r2 :=
      if good
      then set_badStreak 0 (set_goodStreak (goodStreakRef r + 1) r)
      else set_goodStreak 0 (set_badStreak (badStreakRef r + 1) r) in
    let allowed :=
      if (minFramesIn p <=? goodStreakRef r2)%Z then true
      else if (minFramesOut p <=? badStreakRef r2)%Z then false
      else lastCaptureAllowedRef r2 in
    (r2, good, allowed).

(** The value of [isGoodNow] after lines 222-237, and the value of
    [captureAllowed] after lines 222-244 when [good] is that value and [r]
    holds the refs before line 222. *)
Definition goodAfter (status : DistanceStatus) (geomOk : bool) : bool :=
  DistanceStatus_eqb status ok && geomOk.

Definition allowedAfter
    (status : DistanceStatus) (good : bool) (r : Refs) : bool :=
  if DistanceStatus_eqb status ok then
    if (minFramesIn p <=? (if good then goodStreakRef r + 1 else 0))%Z then true
    else if (minFramesOut p <=? (if good then 0 else badStreakRef r + 1))%Z then false
    else lastCaptureAllowedRef r
  else false.

(** Lines 249-253 and 259-262: the counters when no face was predicted. *)
Definition noFaceCounters (r : Refs) : Refs :=
  let r1 := set_lostStreak (lostStreakRef r + 1) r in
  let r2 :=
    if (LOST_RESET_STREAK <=? lostStreakRef r1)%Z
    then set_calibratingStreak 0 (set_baselineEyePx None r1)
    else r1 in
  r2.

Definition noFaceStreaks (r : Refs) : Refs :=
  let r1 := set_goodStreak 0 r in
  set_badStreak (badStreakRef r1 + 1) r1.

(** Lines 265-272: report [captureAllowed], then [isGoodNow], each when it
    is not the value reported last. *)
Definition reportSignals (allowed good : bool) (r : Refs) : Refs * list Call :=
  let '(r1, c1) :=
    if negb (Bool.eqb allowed (lastCaptureAllowedRef r))
    then (set_lastCaptureAllowed allowed r, [onCaptureAllowedChange allowed])
    else (r, []) in
  let '(r2, c2) :=
    if negb (Bool.eqb good (lastGoodVisualRef r1))
    then (set_lastGoodVisual good r1, [onFaceStatusChange good])
    else (r1, []) in
  (r2, c1 ++ c2).

(** Lines 158-247: the branch for [predictions.length > 0], once both eye
    landmarks are known to exist. *)
Definition detectFace
    (r : Refs) (fr : Frame) (face : Face) (leftEye rightEye : Keypoint.t) : Result :=
  let kps := keypoints face in
  let eyeDist := getDistance leftEye rightEye in
  let denom := (2 * Num.Math_min [radiusX fr; radiusY fr])%float in
  let relEyeDist := (eyeDist / Num.Math_max [denom; 1])%float in
  let box :=
    if negb (boxInsideRequired p) then true
    else isBoundingBoxInsideEllipse kps
           (centerX fr) (centerY fr) (radiusX fr) (radiusY fr) in
  let frac :=
    Num.ge (fractionInsideEllipse kps
              (centerX fr) (centerY fr) (radiusX fr) (radiusY fr))
           (percentInsideRequired p) in
  let conf :=
    match faceInViewConfidence face with
    | None => true
    | Some c => Num.gt c 0.95%float
    end in
  let r1 := calibrate (box && frac && conf) eyeDist r in
  let status := classifyDistance (baselineEyePxRef r1) eyeDist relEyeDist in
  let '(r2, c2) := reportDistance status r1 in
  let '(r3, good, allowed) := updateStreaks status (box && frac && conf) r2 in
  let c3 := [onKeypointsDetected (Some kps)] in
  let '(r4, c4) := reportSignals allowed good r3 in
  {| refs := r4;
     calls := c2 ++ c3 ++ c4;
     isGoodNow := good;
     captureAllowed := allowed;
     seen := Some {| eyeDistance := eyeDist;
                     relativeEyeDistance := relEyeDist;
                     boxOk := box;
                     fracOk := frac;
                     confidenceOk := conf;
                     distanceStatus := status |} |}.

(** Lines 248-263: the branch for an empty [predictions]. *)
Definition detectNoFace (r : Refs) : Result :=
  let r1 := noFaceCounters r in
  let '(r2, c2) := reportDistance tooFar r1 in
  let c3 := [onKeypointsDetected None] in
  let r3 := noFaceStreaks r2 in
  let '(r4, c4) := reportSignals false false r3 in
  {| refs := r4;
     calls := c2 ++ c3 ++ c4;
     isGoodNow := false;
     captureAllowed := false;
     seen := None |}.

Definition detect (r : Refs) (fr : Frame) : Outcome :=
  if negb (mounted fr) then Skipped
  else if Num.falsy (videoWidth fr) || Num.falsy (videoHeight fr) then Skipped
  else if negb (hasContext fr) then Skipped
  else
    match predictions fr with
    | face :: _ =>
        match nth_error (keypoints face) 33, nth_error (keypoints face) 263 with
        | Some leftEye, Some rightEye =>
            Processed (detectFace r fr face leftEye rightEye)
        | _, _ => Threw
        end
    | [] => Processed (detectNoFace r)
    end.

(** The refs after a run of [detect]: only a run that reaches the end
    writes to them. *)
Definition step (r : Refs) (fr : Frame) : Refs :=
  match detect r fr with
  | Processed res => refs res
  | Skipped | Threw => r
  end.

(** The refs after the frames [frs], one run of [detect] after the other. *)
Definition runFrames (r : Refs) (frs : list Frame) : Refs :=
  fold_left step frs r.

(** The refs a session can be in: those of a fresh mount, and those left
    by a run of [detect] that started from refs a session can be in. *)
Inductive Reachable : Refs -> Prop :=
| Reachable_init : Reachable initialRefs
| Reachable_step r fr res :
    Reachable r -> detect r fr = Processed res -> Reachable (refs res).

(** [Processes r frs ress r']: from the refs [r] every frame of [frs] is
    processed to the end, with the results [ress], and leaves [r']. *)
Inductive Processes : Refs -> list Frame -> list Result -> Refs -> Prop :=
| Processes_nil r : Processes r [] [] r
| Processes_cons r fr res frs ress r' :
    detect r fr = Processed res ->
    Processes (refs res) frs ress r' ->
    Processes r (fr :: frs) (res :: ress) r'.

End Detect.

(** The distance status a processed frame arrives at: the local
    [distanceStatus] of the face branch, and the literal of lines 254-256
    when there is no face. *)
Definition statusOf (res : Result) : DistanceStatus :=
  match seen res with
  | Some f => distanceStatus f
  | None => tooFar
  end.

(** What [onKeypointsDetected] is called with for a frame: the landmarks of
    the first predicted face, or [None] (the source's [null]). *)
Definition forwarded (fr : Frame) : option (list Keypoint.t) :=
  match predictions fr with
  | face :: _ => Some (keypoints face)
  | [] => None
  end.

(** Every result is that of a frame with a face whose geometry is OK. *)
Definition allGeometryOk (ress : list Result) : bool :=
  forallb
    (fun res =>
       match seen res with
       | Some f => geometryOk f
       | None => false
       end)
    ress.

Section Runs.

Context {ops : NumberOps}.
Variable p : Props.

(** The results of the frames of [frs] that are processed to the end. *)
Fixpoint runResults (r : Refs) (frs : list Frame) : list Result :=
  match frs with
  | [] => []
  | fr :: rest =>
      match detect p r fr with
      | Processed res => res :: runResults (refs res) rest
      | Skipped | Threw => runResults r rest
      end
  end.

(** Every frame of [frs] is processed to the end. *)
Fixpoint allProcessed (r : Refs) (frs : list Frame) : bool :=
  match frs with
  | [] => true
  | fr :: rest =>
      match detect p r fr with
      | Processed res => allProcessed (refs res) rest
      | Skipped | Threw => false
      end
  end.

(** The result of a run of [detect] from the refs [r]; a run that stops
    early leaves the refs alone and calls nothing. *)
Definition resultOr (r : Refs) (o : Outcome) : Result :=
  match o with
  | Processed res => res
  | Skipped | Threw =>
      {| refs := r;
         calls := [];
         isGoodNow := false;
         captureAllowed := lastCaptureAllowedRef r;
         seen := None |}
  end.

End Runs.

(** ** Further vocabulary *)

(** No coordinate of the landmarks [kps] is NaN. *)
Definition noNaN (kps : list Keypoint.t) : bool :=
  forallb
    (fun k => negb (PrimFloat.is_nan (Keypoint.x k))
              && negb (PrimFloat.is_nan (Keypoint.y k)))
    kps.

(** How many of the results are those of frames with a face, and how many
    those of frames without one. *)
Definition countFaces (ress : list Result) : nat :=
  length (filter (fun res => match seen res with Some _ => true | None => false end) ress).

Definition countNoFaces (ress : list Result) : nat :=
  length (filter (fun res => match seen res with Some _ => false | None => true end) ress).


(** ** Sample frames

    A 640 x 480 video: the guide ellipse is centred at (320, 192) with radii
    192 and 148.8.  The detector's face mesh has landmark 33 and landmark
    263 as the two eye reference points, so 264 landmarks are the least a
    face can have. *)

Definition centre : Keypoint.t := Keypoint.mk 320 192.

(** All landmarks at the centre of the ellipse, except the two eye
    references, which lie [gap] pixels apart on the horizontal axis. *)
Definition eyesApart (gap : float) : list Keypoint.t :=
  repeat centre 33
    ++ [Keypoint.mk (320 - gap / 2) 192]
    ++ repeat centre 229
    ++ [Keypoint.mk (320 + gap / 2) 192].

Definition frameOf (faces : list Face) : Frame :=
  {| mounted := true;
     videoWidth := 640;
     videoHeight := 480;
     hasContext := true;
     predictions := faces |}.

Definition faceFrame (gap : float) : Frame :=
  frameOf [ {| keypoints := eyesApart gap; faceInViewConfidence := None |} ].

Definition noFaceFrame : Frame := frameOf [].

(** 300 landmarks, the last twelve of them in the top left corner of the
    video, outside the ellipse: 288 / 300 = 0.96 of them are inside. *)
Definition strayLandmarks : list Keypoint.t :=
  eyesApart 40 ++ repeat centre 24 ++ repeat (Keypoint.mk 0 0) 12.

Definition strayFrame (confidence : option float) : Frame :=
  frameOf [ {| keypoints := strayLandmarks; faceInViewConfidence := confidence |} ].

(** Props that waive the bounding-box test. *)
Definition looseBoxProps : Props := {|
  minFramesIn := 6;
  minFramesOut := 3;
  boxInsideRequired := false;
  percentInsideRequired := 0.95;
  ellipseMargin := 1.0;
  minEyeRatio := 0.08;
  maxEyeRatio := 0.18
|}.

(** The result of one sample frame, and the refs after a list of sample
    frames under the default props. *)
Definition sample (p : Props) (r : Refs) (fr : Frame) : Result :=
  resultOr r (detect (ops := Binary64Ops) p r fr).

(** The locals of the face branch in a sample result (a result without a
    face has none, and the default is never looked at). *)
Definition sampleLocals (res : Result) : FaceLocals :=
  match seen res with
  | Some f => f
  | None =>
      {| eyeDistance := 0;
         relativeEyeDistance := 0;
         boxOk := false;
         fracOk := false;
         confidenceOk := false;
         distanceStatus := tooFar |}
  end.

Definition after (frs : list Frame) : Refs :=
  runFrames (ops := Binary64Ops) defaultProps initialRefs frs.



(** Eight well-placed frames with the eyes 40 pixels apart set the baseline
    to 40. *)
Definition calibrated : Refs := after (repeat (faceFrame 40) 8).

(** Eight well-placed frames with the eyes 100 pixels apart set the
    baseline to 100. *)
Definition calibratedAt100 : Refs := after (repeat (faceFrame 100) 8).

(** After the calibration: a frame without a face, a frame with the face
    back, and another frame without a face. *)
Definition glances : list Frame := [noFaceFrame; faceFrame 40; noFaceFrame].

(** Props whose [minFramesIn] is below one. *)
Definition eagerProps : Props := {|
  minFramesIn := 0;
  minFramesOut := 3;
  boxInsideRequired := true;
  percentInsideRequired := 0.95;
  ellipseMargin := 1.0;
  minEyeRatio := 0.08;
  maxEyeRatio := 0.18
|}.

(** A face whose left eye reference has NaN as its x. *)
Definition nanLandmarks : list Keypoint.t :=
  repeat centre 33
    ++ [Keypoint.mk nan 192]
    ++ repeat centre 229
    ++ [Keypoint.mk 340 192].

Definition nanFrame : Frame :=
  frameOf [ {| keypoints := nanLandmarks; faceInViewConfidence := None |} ].

(** Four well-placed frames, one frame without a face, four more
    well-placed frames. *)
Definition gapFrames : list Frame :=
  repeat (faceFrame 40) 4 ++ [noFaceFrame] ++ repeat (faceFrame 40) 4.

(** Twelve times a frame without a face followed by a face with stray
    landmarks, whose bounding box leaves the ellipse. *)
Definition flickerFrames : list Frame :=
  concat (repeat [noFaceFrame; strayFrame None] 12).

(** ** What one frame does, block by block *)

Section Blocks.

Variable p : Props.

Lemma statusDiffers_false status last :
  statusDiffers status last = false <-> last = Some status.
Proof.
  destruct last as [s|]; simpl.
  - destruct status, s; simpl; split; congruence.
  - split; discriminate.
Qed.

Lemma statusDiffers_true status last :
  statusDiffers status last = true <-> last <> Some status.
Proof.
  rewrite <- statusDiffers_false.
  destruct (statusDiffers status last); split; congruence.
Qed.

Lemma reportDistance_refs status r :
  fst (reportDistance status r) = set_lastDistanceStatus (Some status) r.
Proof.
  unfold reportDistance.
  destruct (statusDiffers status (lastDistanceStatusRef r)) eqn:E; simpl.
  - reflexivity.
  - apply statusDiffers_false in E. destruct r; simpl in *.
    unfold set_lastDistanceStatus; simpl. now rewrite E.
Qed.

Lemma reportDistance_calls status r :
  snd (reportDistance status r) =
  if statusDiffers status (lastDistanceStatusRef r)
  then [onFaceDistanceChange status] else [].
Proof.
  unfold reportDistance.
  now destruct (statusDiffers status (lastDistanceStatusRef r)).
Qed.

Lemma reportSignals_refs allowed good r :
  fst (reportSignals allowed good r) =
  set_lastGoodVisual good (set_lastCaptureAllowed allowed r).
Proof.
  unfold reportSignals.
  destruct r as [lg ld lc gs bs be cs ls]; simpl.
  destruct allowed, lc, good, lg; reflexivity.
Qed.

Lemma reportSignals_calls allowed good r :
  snd (reportSignals allowed good r) =
  (if negb (Bool.eqb allowed (lastCaptureAllowedRef r))
   then [onCaptureAllowedChange allowed] else [])
  ++ (if negb (Bool.eqb good (lastGoodVisualRef r))
      then [onFaceStatusChange good] else []).
Proof.
  unfold reportSignals.
  destruct r as [lg ld lc gs bs be cs ls]; simpl.
  destruct allowed, lc, good, lg; reflexivity.
Qed.

Lemma updateStreaks_eq status geomOk r :
  updateStreaks p status geomOk r =
  (set_badStreak (if goodAfter status geomOk then 0 else badStreakRef r + 1)
     (set_goodStreak (if goodAfter status geomOk then goodStreakRef r + 1 else 0) r),
   goodAfter status geomOk,
   allowedAfter p status (goodAfter status geomOk) r).
Proof.
  unfold updateStreaks, goodAfter, allowedAfter.
  destruct status, geomOk; reflexivity.
Qed.

(** [calibrate] writes to three refs only. *)
Lemma calibrate_calibrating geomOk e r :
  calibratingStreakRef (calibrate geomOk e r) =
  if geomOk then (calibratingStreakRef r + 1)%Z else 0%Z.
Proof.
  unfold calibrate. destruct geomOk; simpl; [|reflexivity].
  destruct (baselineEyePxRef r); [reflexivity|].
  now destruct (CALIBRATE_MIN_STREAK <=? calibratingStreakRef r + 1)%Z.
Qed.

Lemma calibrate_lost geomOk e r :
  lostStreakRef (calibrate geomOk e r) =
  if geomOk then 0%Z else lostStreakRef r.
Proof.
  unfold calibrate. destruct geomOk; simpl; [|reflexivity].
  destruct (baselineEyePxRef r); [reflexivity|].
  now destruct (CALIBRATE_MIN_STREAK <=? calibratingStreakRef r + 1)%Z.
Qed.

Lemma calibrate_baseline geomOk e r :
  baselineEyePxRef (calibrate geomOk e r) =
  match baselineEyePxRef r with
  | Some b => Some b
  | None =>
      if geomOk && (CALIBRATE_MIN_STREAK <=? calibratingStreakRef r + 1)%Z
      then Some e else None
  end.
Proof.
  unfold calibrate. destruct geomOk; simpl.
  - destruct (baselineEyePxRef r) eqn:E; simpl; [exact E|].
    destruct (CALIBRATE_MIN_STREAK <=? calibratingStreakRef r + 1)%Z; simpl;
      [reflexivity | exact E].
  - now destruct (baselineEyePxRef r).
Qed.

Lemma calibrate_others geomOk e r :
  lastGoodVisualRef (calibrate geomOk e r) = lastGoodVisualRef r
  /\ lastDistanceStatusRef (calibrate geomOk e r) = lastDistanceStatusRef r
  /\ lastCaptureAllowedRef (calibrate geomOk e r) = lastCaptureAllowedRef r
  /\ goodStreakRef (calibrate geomOk e r) = goodStreakRef r
  /\ badStreakRef (calibrate geomOk e r) = badStreakRef r.
Proof.
  unfold calibrate. destruct geomOk; simpl; [|tauto].
  destruct (baselineEyePxRef r); [simpl; tauto|].
  destruct (CALIBRATE_MIN_STREAK <=? calibratingStreakRef r + 1)%Z; simpl; tauto.
Qed.

(** [noFaceCounters] writes to the same three refs. *)
Lemma noFaceCounters_lost r :
  lostStreakRef (noFaceCounters r) = (lostStreakRef r + 1)%Z.
Proof.
  unfold noFaceCounters; simpl.
  now destruct (LOST_RESET_STREAK <=? lostStreakRef r + 1)%Z.
Qed.

Lemma noFaceCounters_baseline r :
  baselineEyePxRef (noFaceCounters r) =
  if (LOST_RESET_STREAK <=? lostStreakRef r + 1)%Z then None
  else baselineEyePxRef r.
Proof.
  unfold noFaceCounters; simpl.
  now destruct (LOST_RESET_STREAK <=? lostStreakRef r + 1)%Z.
Qed.

Lemma noFaceCounters_calibrating r :
  calibratingStreakRef (noFaceCounters r) =
  if (LOST_RESET_STREAK <=? lostStreakRef r + 1)%Z then 0%Z
  else calibratingStreakRef r.
Proof.
  unfold noFaceCounters; simpl.
  now destruct (LOST_RESET_STREAK <=? lostStreakRef r + 1)%Z.
Qed.

Lemma noFaceCounters_others r :
  lastGoodVisualRef (noFaceCounters r) = lastGoodVisualRef r
  /\ lastDistanceStatusRef (noFaceCounters r) = lastDistanceStatusRef r
  /\ lastCaptureAllowedRef (noFaceCounters r) = lastCaptureAllowedRef r
  /\ goodStreakRef (noFaceCounters r) = goodStreakRef r
  /\ badStreakRef (noFaceCounters r) = badStreakRef r.
Proof.
  unfold noFaceCounters; simpl.
  destruct (LOST_RESET_STREAK <=? lostStreakRef r + 1)%Z; simpl; tauto.
Qed.

End Blocks.

(** ** What one frame does, as a whole *)

Section Frames.

Context {ops : NumberOps}.
Variable p : Props.

(** The locals of the face branch, in terms of the frame. *)
Record FaceGeometry (fr : Frame) (face : Face)
    (leftEye rightEye : Keypoint.t) (f : FaceLocals) : Prop := {
  fg_eyeDistance : eyeDistance f = getDistance leftEye rightEye;
  fg_relative :
    relativeEyeDistance f =
    (eyeDistance f
     / Num.Math_max [(2 * Num.Math_min [radiusX p fr; radiusY p fr])%float; 1%float])%float;
  fg_boxOk :
    boxOk f =
    if boxInsideRequired p
    then isBoundingBoxInsideEllipse (keypoints face)
           (centerX fr) (centerY fr) (radiusX p fr) (radiusY p fr)
    else true;
  fg_fracOk :
    fracOk f =
    Num.ge (fractionInsideEllipse (keypoints face)
              (centerX fr) (centerY fr) (radiusX p fr) (radiusY p fr))
           (percentInsideRequired p);
  fg_confidenceOk :
    confidenceOk f =
    match faceInViewConfidence face with
    | None => true
    | Some c => Num.gt c 0.95%float
    end
}.

(** The refs, the calls and the locals after the face branch, in terms of
    the refs [r] before it and of the locals [f]. *)
Record FaceStep (kps : list Keypoint.t) (r : Refs) (res : Result) (f : FaceLocals) : Prop := {
  fs_calibrating :
    calibratingStreakRef (refs res) =
    if geometryOk f then (calibratingStreakRef r + 1)%Z else 0%Z;
  fs_lost :
    lostStreakRef (refs res) = if geometryOk f then 0%Z else lostStreakRef r;
  fs_baseline :
    baselineEyePxRef (refs res) =
    match baselineEyePxRef r with
    | Some b => Some b
    | None =>
        if geometryOk f && (CALIBRATE_MIN_STREAK <=? calibratingStreakRef r + 1)%Z
        then Some (eyeDistance f) else None
    end;
  fs_status :
    distanceStatus f =
    classifyDistance p (baselineEyePxRef (refs res))
      (eyeDistance f) (relativeEyeDistance f);
  fs_isGoodNow : isGoodNow res = goodAfter (distanceStatus f) (geometryOk f);
  fs_goodStreak :
    goodStreakRef (refs res) = if isGoodNow res then (goodStreakRef r + 1)%Z else 0%Z;
  fs_badStreak :
    badStreakRef (refs res) = if isGoodNow res then 0%Z else (badStreakRef r + 1)%Z;
  fs_captureAllowed :
    captureAllowed res = allowedAfter p (distanceStatus f) (isGoodNow res) r;
  fs_lastDistance : lastDistanceStatusRef (refs res) = Some (distanceStatus f);
  fs_lastCapture : lastCaptureAllowedRef (refs res) = captureAllowed res;
  fs_lastGood : lastGoodVisualRef (refs res) = isGoodNow res;
  fs_calls :
    calls res =
    (if statusDiffers (distanceStatus f) (lastDistanceStatusRef r)
     then [onFaceDistanceChange (distanceStatus f)] else [])
    ++ [onKeypointsDetected (Some kps)]
    ++ (if negb (Bool.eqb (captureAllowed res) (lastCaptureAllowedRef r))
        then [onCaptureAllowedChange (captureAllowed res)] else [])
    ++ (if negb (Bool.eqb (isGoodNow res) (lastGoodVisualRef r))
        then [onFaceStatusChange (isGoodNow res)] else [])
}.

(** The same for the branch without a face. *)
Record NoFaceStep (r : Refs) (res : Result) : Prop := {
  nf_lost : lostStreakRef (refs res) = (lostStreakRef r + 1)%Z;
  nf_baseline :
    baselineEyePxRef (refs res) =
    if (LOST_RESET_STREAK <=? lostStreakRef r + 1)%Z then None
    else baselineEyePxRef r;
  nf_calibrating :
    calibratingStreakRef (refs res) =
    if (LOST_RESET_STREAK <=? lostStreakRef r + 1)%Z then 0%Z
    else calibratingStreakRef r;
  nf_isGoodNow : isGoodNow res = false;
  nf_captureAllowed : captureAllowed res = false;
  nf_goodStreak : goodStreakRef (refs res) = 0%Z;
  nf_badStreak : badStreakRef (refs res) = (badStreakRef r + 1)%Z;
  nf_lastDistance : lastDistanceStatusRef (refs res) = Some tooFar;
  nf_lastCapture : lastCaptureAllowedRef (refs res) = false;
  nf_lastGood : lastGoodVisualRef (refs res) = false;
  nf_calls :
    calls res =
    (if statusDiffers tooFar (lastDistanceStatusRef r)
     then [onFaceDistanceChange tooFar] else [])
    ++ [onKeypointsDetected None]
    ++ (if negb (Bool.eqb false (lastCaptureAllowedRef r))
        then [onCaptureAllowedChange false] else [])
    ++ (if negb (Bool.eqb false (lastGoodVisualRef r))
        then [onFaceStatusChange false] else [])
}.

Lemma detectFace_seen r fr face leftEye rightEye :
  exists f,
    seen (detectFace p r fr face leftEye rightEye) = Some f
    /\ FaceGeometry fr face leftEye rightEye f.
Proof.
  unfold detectFace.
  destruct (reportDistance _ _) as [r2 c2].
  destruct (updateStreaks _ _ _ _) as [[r3 good] allowed].
  destruct (reportSignals _ _ _) as [r4 c4].
  eexists; split; [reflexivity|].
  constructor; simpl; try reflexivity.
  now destruct (boxInsideRequired p).
Qed.

Lemma detectFace_step r fr face leftEye rightEye f :
  seen (detectFace p r fr face leftEye rightEye) = Some f ->
  FaceStep (keypoints face) r (detectFace p r fr face leftEye rightEye) f.
Proof.
  unfold detectFace.
  destruct (reportDistance _ _) as [r2 c2] eqn:E2.
  destruct (updateStreaks _ _ _ _) as [[r3 good] allowed] eqn:E3.
  destruct (reportSignals _ _ _) as [r4 c4] eqn:E4.
  simpl. intros [= <-].
  pose proof (f_equal fst E2) as R2; pose proof (f_equal snd E2) as C2.
  rewrite reportDistance_refs in R2; rewrite reportDistance_calls in C2.
  rewrite updateStreaks_eq in E3. injection E3 as R3 G3 A3.
  pose proof (f_equal fst E4) as R4; pose proof (f_equal snd E4) as C4.
  rewrite reportSignals_refs in R4; rewrite reportSignals_calls in C4.
  simpl in R2, C2, R4, C4. subst r4 c4 r3 r2 c2 good allowed.
  match goal with
  | |- context [calibrate ?g ?e r] =>
      pose proof (calibrate_calibrating g e r) as Hc;
      pose proof (calibrate_lost g e r) as Hl;
      pose proof (calibrate_baseline g e r) as Hb;
      destruct (calibrate_others g e r) as (Hg & Hd & Ha & Hgs & Hbs)
  end.
  constructor; unfold geometryOk, allowedAfter; simpl;
    rewrite ?Hc, ?Hl, ?Hb, ?Hg, ?Hd, ?Ha, ?Hgs, ?Hbs; reflexivity.
Qed.

Lemma detectNoFace_seen r : seen (detectNoFace r) = None.
Proof.
  unfold detectNoFace.
  destruct (reportDistance _ _) as [r2 c2].
  now destruct (reportSignals _ _ _) as [r4 c4].
Qed.

Lemma detectNoFace_step r : NoFaceStep r (detectNoFace r).
Proof.
  unfold detectNoFace.
  destruct (reportDistance _ _) as [r2 c2] eqn:E2.
  destruct (reportSignals _ _ _) as [r4 c4] eqn:E4.
  pose proof (f_equal fst E2) as R2; pose proof (f_equal snd E2) as C2.
  rewrite reportDistance_refs in R2; rewrite reportDistance_calls in C2.
  pose proof (f_equal fst E4) as R4; pose proof (f_equal snd E4) as C4.
  rewrite reportSignals_refs in R4; rewrite reportSignals_calls in C4.
  simpl in R2, C2, R4, C4. subst r4 c4 r2 c2.
  pose proof (noFaceCounters_lost r) as Hl.
  pose proof (noFaceCounters_baseline r) as Hb.
  pose proof (noFaceCounters_calibrating r) as Hc.
  destruct (noFaceCounters_others r) as (Hg & Hd & Ha & Hgs & Hbs).
  constructor; simpl; rewrite ?Hl, ?Hb, ?Hc, ?Hg, ?Hd, ?Ha, ?Hgs, ?Hbs;
    reflexivity.
Qed.

(** A run of [detect] that reaches the end took one of the two branches. *)
Inductive Branch (r : Refs) (fr : Frame) (res : Result) : Prop :=
| Branch_face face rest leftEye rightEye f :
    predictions fr = face :: rest ->
    nth_error (keypoints face) 33 = Some leftEye ->
    nth_error (keypoints face) 263 = Some rightEye ->
    seen res = Some f ->
    FaceGeometry fr face leftEye rightEye f ->
    FaceStep (keypoints face) r res f ->
    Branch r fr res
| Branch_noFace :
    predictions fr = [] ->
    seen res = None ->
    NoFaceStep r res ->
    Branch r fr res.

Lemma detect_Processed r fr res :
  detect p r fr = Processed res -> Branch r fr res.
Proof.
  unfold detect.
  destruct (negb (mounted fr)); [discriminate|].
  destruct (Num.falsy (videoWidth fr) || Num.falsy (videoHeight fr)); [discriminate|].
  destruct (negb (hasContext fr)); [discriminate|].
  destruct (predictions fr) as [|face rest] eqn:Ep.
  - intros [= <-]. apply Branch_noFace; [exact Ep | apply detectNoFace_seen |].
    apply detectNoFace_step.
  - destruct (nth_error (keypoints face) 33) as [leftEye|] eqn:El; [|discriminate].
    destruct (nth_error (keypoints face) 263) as [rightEye|] eqn:Er; [|discriminate].
    intros [= <-].
    destruct (detectFace_seen r fr face leftEye rightEye) as (f & Hs & Hg).
    eapply Branch_face; eauto.
    now apply detectFace_step.
Qed.

(** A frame that passes the guards is processed to the end as soon as the
    first face, if there is one, has the two eye landmarks. *)
Lemma detect_processes r fr :
  mounted fr = true ->
  Num.falsy (videoWidth fr) = false ->
  Num.falsy (videoHeight fr) = false ->
  hasContext fr = true ->
  (forall face rest, predictions fr = face :: rest ->
     (264 <= length (keypoints face))%nat) ->
  exists res, detect p r fr = Processed res.
Proof.
  intros Hm Hw Hh Hc Hk. unfold detect.
  rewrite Hm, Hw, Hh, Hc. cbn [negb orb].
  destruct (predictions fr) as [|face rest]; [eexists; reflexivity|].
  specialize (Hk face rest eq_refl).
  destruct (nth_error (keypoints face) 33) as [leftEye|] eqn:El.
  - destruct (nth_error (keypoints face) 263) as [rightEye|] eqn:Er;
      [eexists; reflexivity|].
    apply nth_error_None in Er. lia.
  - apply nth_error_None in El. lia.
Qed.

End Frames.

(** ** Runs *)

Section RunLemmas.

Context {ops : NumberOps}.
Variable p : Props.

Lemma Processes_run frs : forall r,
  allProcessed p r frs = true ->
  Processes p r frs (runResults p r frs) (runFrames p r frs).
Proof.
  induction frs as [|fr frs IH]; intros r H; simpl in *.
  - constructor.
  - unfold runFrames; simpl. unfold step.
    destruct (detect p r fr) as [| |res] eqn:E; try discriminate.
    econstructor; [exact E|]. apply IH, H.
Qed.

Lemma allGeometryOk_Forall ress :
  allGeometryOk ress = true ->
  Forall (fun res => exists f, seen res = Some f /\ geometryOk f = true) ress.
Proof.
  unfold allGeometryOk. rewrite forallb_forall, Forall_forall.
  intros H res Hin. specialize (H res Hin).
  destruct (seen res) as [f|]; [|discriminate].
  exists f. split; [reflexivity | exact H].
Qed.

Lemma Processes_final r frs ress r' :
  Processes p r frs ress r' -> r' = runFrames p r frs.
Proof.
  induction 1 as [|r fr res frs ress r' E _ IH]; [reflexivity|].
  unfold runFrames; simpl. unfold step. now rewrite E.
Qed.

Lemma Processes_length r frs ress r' :
  Processes p r frs ress r' -> length ress = length frs.
Proof. induction 1; simpl; congruence. Qed.

Lemma Processes_app r frs1 frs2 ress r' :
  Processes p r (frs1 ++ frs2) ress r' ->
  exists ress1 ress2 rm,
    ress = ress1 ++ ress2
    /\ Processes p r frs1 ress1 rm
    /\ Processes p rm frs2 ress2 r'.
Proof.
  revert r ress. induction frs1 as [|fr frs1 IH]; intros r ress H; simpl in *.
  - exists [], ress, r. repeat split; [constructor | exact H].
  - inversion H as [|r0 fr0 res frs ress0 r0' E Hrest]; subst.
    destruct (IH _ _ Hrest) as (ress1 & ress2 & rm & -> & H1 & H2).
    exists (res :: ress1), ress2, rm. repeat split; [|exact H2].
    econstructor; eauto.
Qed.

Lemma Reachable_Processes r frs ress r' :
  Reachable p r -> Processes p r frs ress r' -> Reachable p r'.
Proof.
  intros Hr H. induction H as [|r fr res frs ress r' E _ IH]; [exact Hr|].
  apply IH. econstructor; eauto.
Qed.

Lemma Reachable_results r frs ress r' :
  Reachable p r -> Processes p r frs ress r' ->
  Forall (fun res => Reachable p (refs res)) ress.
Proof.
  intros Hr H. induction H as [|r fr res frs ress r' E _ IH]; constructor.
  - econstructor; eauto.
  - apply IH. econstructor; eauto.
Qed.

End RunLemmas.

(** ** Invariants of the refs *)

Ltac leb_cases :=
  repeat match goal with
    | |- context [(?a <=? ?b)%Z] => destruct (Z.leb_spec a b)
    | H : context [(?a <=? ?b)%Z] |- _ => destruct (Z.leb_spec a b)
    end.

Section Invariants.

Context {ops : NumberOps}.
Variable p : Props.

(** What holds of the refs throughout a session. *)
Record Inv (r : Refs) : Prop := {
  inv_good : (0 <= goodStreakRef r)%Z;
  inv_bad : (0 <= badStreakRef r)%Z;
  inv_calibrating : (0 <= calibratingStreakRef r)%Z;
  inv_lost : (0 <= lostStreakRef r)%Z;
  inv_exclusive : goodStreakRef r = 0%Z \/ badStreakRef r = 0%Z;
  inv_baseline :
    baselineEyePxRef r <> None -> (lostStreakRef r < LOST_RESET_STREAK)%Z;
  inv_in :
    (1 <= minFramesIn p)%Z -> (minFramesIn p <= goodStreakRef r)%Z ->
    lastCaptureAllowedRef r = true;
  inv_out :
    (1 <= minFramesIn p)%Z -> (1 <= minFramesOut p)%Z ->
    (minFramesOut p <= badStreakRef r)%Z ->
    lastCaptureAllowedRef r = false
}.

Lemma Inv_init : Inv initialRefs.
Proof.
  constructor; simpl; unfold LOST_RESET_STREAK; try lia; tauto.
Qed.

Lemma Inv_step r fr res :
  Inv r -> detect p r fr = Processed res -> Inv (refs res).
Proof.
  intros [Hg Hb Hc Hl Hx Hbase Hin Hout] H.
  unfold LOST_RESET_STREAK in *.
  destruct (detect_Processed _ _ _ _ H) as [face rest le re f _ _ _ _ _ S | _ _ S].
  - destruct S as [Ec El Eb _ Egood Egs Ebs Ea _ Elc _ _].
    unfold goodAfter in Egood.
    constructor; rewrite ?Ec, ?El, ?Eb, ?Egs, ?Ebs, ?Elc, ?Ea;
      unfold allowedAfter, LOST_RESET_STREAK;
      destruct (isGoodNow res), (geometryOk f),
        (DistanceStatus_eqb (distanceStatus f) ok), (baselineEyePxRef r);
      simpl in *; try discriminate; intros; leb_cases;
      try lia; try congruence; try tauto;
      try (apply Hbase; congruence).
  - destruct S as [El Eb Ec _ _ Egs Ebs _ Elc _ _].
    constructor; rewrite ?Ec, ?El, ?Eb, ?Egs, ?Ebs, ?Elc;
      unfold LOST_RESET_STREAK; intros; leb_cases; try lia; try congruence; try tauto;
      try (apply Hbase in H0; lia).
Qed.

Lemma Reachable_Inv r : Reachable p r -> Inv r.
Proof.
  induction 1 as [|r fr res _ IH H]; [apply Inv_init | eapply Inv_step; eauto].
Qed.

End Invariants.

(** ** The streak counters *)

Section Streaks.

Context {ops : NumberOps}.
Variable p : Props.

(** C2.  Every processed frame either adds one to [goodStreak] and sets
    [badStreak] to zero, or adds one to [badStreak] and sets [goodStreak] to
    zero, so that after it at most one of the two is not zero; in a session,
    which starts with both at zero, exactly one of them is positive after
    every processed frame. *)
Theorem streaks_exclusive r fr res :
  detect p r fr = Processed res ->
  ((goodStreakRef (refs res) = goodStreakRef r + 1
    /\ badStreakRef (refs res) = 0)
   \/ (badStreakRef (refs res) = badStreakRef r + 1
       /\ goodStreakRef (refs res) = 0))%Z
  /\ (goodStreakRef (refs res) = 0 \/ badStreakRef (refs res) = 0)%Z
  /\ (Reachable p r ->
      (0 < goodStreakRef (refs res) /\ badStreakRef (refs res) = 0)
      \/ (0 < badStreakRef (refs res) /\ goodStreakRef (refs res) = 0))%Z.
Proof.
  intros H.
  assert (G : (goodStreakRef (refs res) = if isGoodNow res then goodStreakRef r + 1 else 0)%Z
              /\ (badStreakRef (refs res) = if isGoodNow res then 0 else badStreakRef r + 1)%Z).
  { destruct (detect_Processed _ _ _ _ H) as [face rest le re f _ _ _ _ _ S | _ _ S];
      destruct S; split; try assumption.
    - now rewrite nf_isGoodNow0.
    - now rewrite nf_isGoodNow0. }
  destruct G as [Eg Eb]. rewrite Eg, Eb.
  split; [|split].
  - destruct (isGoodNow res); [left | right]; split; reflexivity.
  - destruct (isGoodNow res); [right | left]; reflexivity.
  - intros Hr. apply Reachable_Inv in Hr. destruct Hr.
    destruct (isGoodNow res); [left | right]; split; lia.
Qed.

(** C5.  [lostStreak] grows by one on a frame without a face, is set to
    zero on a frame whose geometry is OK and is left as it was on a frame
    with a face whose geometry is not OK; and a frame on which it climbs to
    12 (or beyond) is a frame without a face that clears the baseline and
    sets [calibratingStreak] to zero. *)
Theorem lostStreak_update r fr res :
  detect p r fr = Processed res ->
  match seen res with
  | None => lostStreakRef (refs res) = lostStreakRef r + 1
  | Some f =>
      lostStreakRef (refs res) = if geometryOk f then 0 else lostStreakRef r
  end%Z
  /\ (seen res = None ->
      (LOST_RESET_STREAK <= lostStreakRef (refs res))%Z ->
      baselineEyePxRef (refs res) = None
      /\ calibratingStreakRef (refs res) = 0%Z)
  /\ ((lostStreakRef r < LOST_RESET_STREAK <= lostStreakRef (refs res))%Z ->
      seen res = None
      /\ lostStreakRef (refs res) = LOST_RESET_STREAK
      /\ baselineEyePxRef (refs res) = None
      /\ calibratingStreakRef (refs res) = 0%Z).
Proof.
  intros H. unfold LOST_RESET_STREAK.
  destruct (detect_Processed _ _ _ _ H) as [face rest le re f _ _ _ Hs _ S | _ Hs S];
    rewrite Hs.
  - destruct S as [_ El _ _ _ _ _ _ _ _ _ _].
    split; [exact El|]. split; [discriminate|].
    rewrite El. destruct (geometryOk f); lia.
  - destruct S as [El Eb Ec _ _ _ _ _ _ _ _].
    unfold LOST_RESET_STREAK in *.
    rewrite El, Eb, Ec. split; [reflexivity|].
    split; intros; leb_cases; repeat split; try lia; reflexivity.
Qed.

(** C3.  Let the baseline be set in some state of a session.  Over any
    later frames during which [lostStreak] stays below 12 the baseline keeps
    its value; and the next frame keeps it again when it shows a face,
    whatever the geometry, or leaves [lostStreak] below 12, and otherwise is
    a frame without a face that takes [lostStreak] to exactly 12 and clears
    the baseline. *)
Theorem baseline_kept_until_lost r frs ress r' b :
  Reachable p r ->
  baselineEyePxRef r = Some b ->
  Processes p r frs ress r' ->
  Forall (fun res => (lostStreakRef (refs res) < LOST_RESET_STREAK)%Z) ress ->
  Forall (fun res => baselineEyePxRef (refs res) = Some b) ress
  /\ baselineEyePxRef r' = Some b
  /\ forall fr res,
       detect p r' fr = Processed res ->
       (seen res <> None -> baselineEyePxRef (refs res) = Some b)
       /\ ((lostStreakRef (refs res) < LOST_RESET_STREAK)%Z ->
           baselineEyePxRef (refs res) = Some b)
       /\ ((LOST_RESET_STREAK <= lostStreakRef (refs res))%Z ->
           seen res = None
           /\ lostStreakRef (refs res) = LOST_RESET_STREAK
           /\ baselineEyePxRef (refs res) = None).
Proof.
  assert (One : forall r0 fr res,
    Reachable p r0 -> baselineEyePxRef r0 = Some b ->
    detect p r0 fr = Processed res ->
    (seen res <> None -> baselineEyePxRef (refs res) = Some b)
    /\ ((lostStreakRef (refs res) < LOST_RESET_STREAK)%Z ->
        baselineEyePxRef (refs res) = Some b)
    /\ ((LOST_RESET_STREAK <= lostStreakRef (refs res))%Z ->
        seen res = None
        /\ lostStreakRef (refs res) = LOST_RESET_STREAK
        /\ baselineEyePxRef (refs res) = None)).
  { intros r0 fr res Hr Hb H.
    apply Reachable_Inv in Hr. destruct Hr as [_ _ _ Hl _ Hbase _ _].
    assert (Hlt : (lostStreakRef r0 < LOST_RESET_STREAK)%Z)
      by (apply Hbase; congruence).
    unfold LOST_RESET_STREAK in *.
    destruct (detect_Processed _ _ _ _ H) as [face rest le re f _ _ _ Hs _ S | _ Hs S];
      rewrite Hs.
    - destruct S as [_ El Eb _ _ _ _ _ _ _ _ _].
      rewrite Hb in Eb. rewrite El, Eb.
      repeat split; try reflexivity; destruct (geometryOk f); lia.
    - destruct S as [El Eb _ _ _ _ _ _ _ _ _].
      unfold LOST_RESET_STREAK in *. rewrite El, Eb, Hb.
      repeat split; intros; leb_cases; try lia; try reflexivity; congruence. }
  intros Hr Hb HP. revert Hr Hb.
  induction HP as [r|r fr res frs ress r' E HP IH]; intros Hr Hb Hall.
  - split; [constructor|]. split; [exact Hb|].
    intros fr res H. now apply One with (r0 := r) (fr := fr).
  - inversion Hall as [|x l Hx Hrest]; subst.
    destruct (One r fr res Hr Hb E) as (_ & Keep & _).
    specialize (Keep Hx).
    destruct IH as (F & Hb' & Next);
      [econstructor; eauto | exact Keep | exact Hrest |].
    split; [constructor; assumption|]. split; assumption.
Qed.

End Streaks.

Lemma Reachable_runFrames {ops : NumberOps} p frs : forall r,
  Reachable p r -> Reachable p (runFrames p r frs).
Proof.
  induction frs as [|fr frs IH]; intros r Hr; [exact Hr|].
  unfold runFrames; simpl. apply IH. unfold step.
  destruct (detect p r fr) eqn:E; try exact Hr.
  econstructor; eauto.
Qed.

Lemma calibrated_Reachable : Reachable (ops := Binary64Ops) defaultProps calibrated.
Proof. apply Reachable_runFrames. constructor. Qed.

Lemma streaks_exclusive_witness :
  let res := sample defaultProps initialRefs (faceFrame 40) in
  detect (ops := Binary64Ops) defaultProps initialRefs (faceFrame 40) = Processed res
  /\ (((goodStreakRef (refs res) = goodStreakRef initialRefs + 1
        /\ badStreakRef (refs res) = 0)
       \/ (badStreakRef (refs res) = badStreakRef initialRefs + 1
           /\ goodStreakRef (refs res) = 0))%Z
      /\ (goodStreakRef (refs res) = 0 \/ badStreakRef (refs res) = 0)%Z
      /\ (Reachable (ops := Binary64Ops) defaultProps initialRefs ->
          (0 < goodStreakRef (refs res) /\ badStreakRef (refs res) = 0)
          \/ (0 < badStreakRef (refs res) /\ goodStreakRef (refs res) = 0))%Z).
Proof.
  assert (H : detect (ops := Binary64Ops) defaultProps initialRefs (faceFrame 40)
              = Processed (sample defaultProps initialRefs (faceFrame 40)))
    by (vm_compute; reflexivity).
  split; [exact H | exact (@streaks_exclusive Binary64Ops defaultProps _ _ _ H)].
Defined.

Lemma lostStreak_update_witness :
  let r := after (repeat noFaceFrame 11) in
  let res := sample defaultProps r noFaceFrame in
  detect (ops := Binary64Ops) defaultProps r noFaceFrame = Processed res
  /\ (match seen res with
      | None => lostStreakRef (refs res) = lostStreakRef r + 1
      | Some f =>
          lostStreakRef (refs res) = if geometryOk f then 0 else lostStreakRef r
      end%Z
      /\ (seen res = None ->
          (LOST_RESET_STREAK <= lostStreakRef (refs res))%Z ->
          baselineEyePxRef (refs res) = None
          /\ calibratingStreakRef (refs res) = 0%Z)
      /\ ((lostStreakRef r < LOST_RESET_STREAK <= lostStreakRef (refs res))%Z ->
          seen res = None
          /\ lostStreakRef (refs res) = LOST_RESET_STREAK
          /\ baselineEyePxRef (refs res) = None
          /\ calibratingStreakRef (refs res) = 0%Z)).
Proof.
  assert (H : detect (ops := Binary64Ops) defaultProps
                (after (repeat noFaceFrame 11)) noFaceFrame
              = Processed (sample defaultProps (after (repeat noFaceFrame 11)) noFaceFrame))
    by (vm_compute; reflexivity).
  split; [exact H | exact (@lostStreak_update Binary64Ops defaultProps _ _ _ H)].
Defined.

Lemma baseline_kept_until_lost_witness :
  let ress := runResults (ops := Binary64Ops) defaultProps calibrated glances in
  let r' := runFrames (ops := Binary64Ops) defaultProps calibrated glances in
  baselineEyePxRef calibrated = Some 40%float
  /\ Forall (fun res => baselineEyePxRef (refs res) = Some 40%float) ress
  /\ baselineEyePxRef r' = Some 40%float
  /\ forall fr res,
       detect (ops := Binary64Ops) defaultProps r' fr = Processed res ->
       (seen res <> None -> baselineEyePxRef (refs res) = Some 40%float)
       /\ ((lostStreakRef (refs res) < LOST_RESET_STREAK)%Z ->
           baselineEyePxRef (refs res) = Some 40%float)
       /\ ((LOST_RESET_STREAK <= lostStreakRef (refs res))%Z ->
           seen res = None
           /\ lostStreakRef (refs res) = LOST_RESET_STREAK
           /\ baselineEyePxRef (refs res) = None).
Proof.
  assert (Hb : baselineEyePxRef calibrated = Some 40%float)
    by (vm_compute; reflexivity).
  assert (HP : Processes (ops := Binary64Ops) defaultProps calibrated glances
                 (runResults (ops := Binary64Ops) defaultProps calibrated glances)
                 (runFrames (ops := Binary64Ops) defaultProps calibrated glances))
    by (apply Processes_run; vm_compute; reflexivity).
  assert (HF : Forall (fun res => (lostStreakRef (refs res) < LOST_RESET_STREAK)%Z)
                 (runResults (ops := Binary64Ops) defaultProps calibrated glances))
    by (vm_compute; repeat constructor).
  split; [exact Hb|].
  exact (@baseline_kept_until_lost Binary64Ops defaultProps _ _ _ _ _ calibrated_Reachable Hb HP HF).
Defined.

(** ** The calls of a frame *)

Section Signals.

Context {ops : NumberOps}.
Variable p : Props.

(** The calls of a processed frame, in the order in which they are made. *)
Lemma frame_calls r fr res :
  detect p r fr = Processed res ->
  calls res =
  (if statusDiffers (statusOf res) (lastDistanceStatusRef r)
   then [onFaceDistanceChange (statusOf res)] else [])
  ++ [onKeypointsDetected (forwarded fr)]
  ++ (if negb (Bool.eqb (captureAllowed res) (lastCaptureAllowedRef r))
      then [onCaptureAllowedChange (captureAllowed res)] else [])
  ++ (if negb (Bool.eqb (isGoodNow res) (lastGoodVisualRef r))
      then [onFaceStatusChange (isGoodNow res)] else []).
Proof.
  intros H. unfold statusOf, forwarded.
  destruct (detect_Processed _ _ _ _ H) as [face rest le re f Ep _ _ Hs _ S | Ep Hs S];
    rewrite Hs, Ep; destruct S; try assumption.
  now rewrite nf_calls0, nf_captureAllowed0, nf_isGoodNow0.
Qed.

(** The three last-reported refs after a processed frame hold the values
    the frame computed. *)
Lemma frame_last r fr res :
  detect p r fr = Processed res ->
  lastDistanceStatusRef (refs res) = Some (statusOf res)
  /\ lastCaptureAllowedRef (refs res) = captureAllowed res
  /\ lastGoodVisualRef (refs res) = isGoodNow res.
Proof.
  intros H. unfold statusOf.
  destruct (detect_Processed _ _ _ _ H) as [face rest le re f _ _ _ Hs _ S | _ Hs S];
    rewrite Hs; destruct S; repeat split; congruence.
Qed.

Lemma in_distance_call r fr res s :
  detect p r fr = Processed res ->
  In (onFaceDistanceChange s) (calls res) <->
  s = statusOf res /\ lastDistanceStatusRef r <> Some s.
Proof.
  intros H. rewrite (frame_calls _ _ _ H).
  destruct (statusDiffers (statusOf res) (lastDistanceStatusRef r)) eqn:E;
    [apply statusDiffers_true in E | apply statusDiffers_false in E];
    destruct (negb (Bool.eqb (captureAllowed res) (lastCaptureAllowedRef r)));
    destruct (negb (Bool.eqb (isGoodNow res) (lastGoodVisualRef r)));
    simpl; intuition (try discriminate; try congruence).
Qed.

Lemma in_capture_call r fr res b :
  detect p r fr = Processed res ->
  In (onCaptureAllowedChange b) (calls res) <->
  b = captureAllowed res /\ lastCaptureAllowedRef r <> b.
Proof.
  intros H. rewrite (frame_calls _ _ _ H).
  destruct (statusDiffers (statusOf res) (lastDistanceStatusRef r));
    destruct (captureAllowed res), (lastCaptureAllowedRef r);
    destruct (negb (Bool.eqb (isGoodNow res) (lastGoodVisualRef r)));
    simpl; intuition (try discriminate; try congruence).
Qed.

Lemma in_good_call r fr res b :
  detect p r fr = Processed res ->
  In (onFaceStatusChange b) (calls res) <->
  b = isGoodNow res /\ lastGoodVisualRef r <> b.
Proof.
  intros H. rewrite (frame_calls _ _ _ H).
  destruct (statusDiffers (statusOf res) (lastDistanceStatusRef r));
    destruct (negb (Bool.eqb (captureAllowed res) (lastCaptureAllowedRef r)));
    destruct (isGoodNow res), (lastGoodVisualRef r);
    simpl; intuition (try discriminate; try congruence).
Qed.

Lemma in_keypoints_call r fr res k :
  detect p r fr = Processed res ->
  In (onKeypointsDetected k) (calls res) <-> k = forwarded fr.
Proof.
  intros H. rewrite (frame_calls _ _ _ H).
  destruct (statusDiffers (statusOf res) (lastDistanceStatusRef r));
    destruct (negb (Bool.eqb (captureAllowed res) (lastCaptureAllowedRef r)));
    destruct (negb (Bool.eqb (isGoodNow res) (lastGoodVisualRef r)));
    simpl; intuition (try discriminate; try congruence).
Qed.

(** C9.  On a processed frame each of [onFaceDistanceChange],
    [onCaptureAllowedChange] and [onFaceStatusChange] is called, once and
    with the value the frame computed, exactly when that value is not the
    one reported last; [onKeypointsDetected] is called once, with the
    landmarks of the face when there is one and with [None] when there is
    none.  The frame leaves each of the three last-reported refs at the
    value it computed, whether it called the callback or not; so when the
    next processed frame arrives at the same distance status (the same
    capture-allowed value, the same face-good value), it does not call
    [onFaceDistanceChange] ([onCaptureAllowedChange],
    [onFaceStatusChange]), and when it arrives at another value it does
    call it, with that value. *)
Theorem calls_on_change r fr res :
  detect p r fr = Processed res ->
  calls res =
    (if statusDiffers (statusOf res) (lastDistanceStatusRef r)
     then [onFaceDistanceChange (statusOf res)] else [])
    ++ [onKeypointsDetected (forwarded fr)]
    ++ (if negb (Bool.eqb (captureAllowed res) (lastCaptureAllowedRef r))
        then [onCaptureAllowedChange (captureAllowed res)] else [])
    ++ (if negb (Bool.eqb (isGoodNow res) (lastGoodVisualRef r))
        then [onFaceStatusChange (isGoodNow res)] else [])
  /\ (forall s, In (onFaceDistanceChange s) (calls res) <->
                s = statusOf res /\ lastDistanceStatusRef r <> Some s)
  /\ (forall b, In (onCaptureAllowedChange b) (calls res) <->
                b = captureAllowed res /\ lastCaptureAllowedRef r <> b)
  /\ (forall b, In (onFaceStatusChange b) (calls res) <->
                b = isGoodNow res /\ lastGoodVisualRef r <> b)
  /\ (forall k, In (onKeypointsDetected k) (calls res) <-> k = forwarded fr)
  /\ (seen res = None <-> forwarded fr = None)
  /\ (forall fr2 res2,
        detect p (refs res) fr2 = Processed res2 ->
        statusOf res2 = statusOf res ->
        forall s, ~ In (onFaceDistanceChange s) (calls res2))
  /\ lastDistanceStatusRef (refs res) = Some (statusOf res)
  /\ lastCaptureAllowedRef (refs res) = captureAllowed res
  /\ lastGoodVisualRef (refs res) = isGoodNow res
  /\ (forall fr2 res2,
        detect p (refs res) fr2 = Processed res2 ->
        (captureAllowed res2 = captureAllowed res ->
         forall b, ~ In (onCaptureAllowedChange b) (calls res2))
        /\ (isGoodNow res2 = isGoodNow res ->
            forall b, ~ In (onFaceStatusChange b) (calls res2))
        /\ (statusOf res2 <> statusOf res ->
            In (onFaceDistanceChange (statusOf res2)) (calls res2))
        /\ (captureAllowed res2 <> captureAllowed res ->
            In (onCaptureAllowedChange (captureAllowed res2)) (calls res2))
        /\ (isGoodNow res2 <> isGoodNow res ->
            In (onFaceStatusChange (isGoodNow res2)) (calls res2))).
Proof.
  intros H.
  destruct (frame_last _ _ _ H) as (Ld & Lc & Lg).
  split; [exact (frame_calls _ _ _ H)|].
  split; [intros s; exact (in_distance_call _ _ _ s H)|].
  split; [intros b; exact (in_capture_call _ _ _ b H)|].
  split; [intros b; exact (in_good_call _ _ _ b H)|].
  split; [intros k; exact (in_keypoints_call _ _ _ k H)|].
  split.
  - unfold forwarded.
    destruct (detect_Processed _ _ _ _ H) as [face rest le re f Ep _ _ Hs _ _ | Ep Hs _];
      rewrite Hs, Ep; split; congruence.
  - split.
    { intros fr2 res2 H2 Same s Hin.
      apply (in_distance_call _ _ _ s H2) in Hin. destruct Hin as [-> Hne].
      congruence. }
    split; [exact Ld|]. split; [exact Lc|]. split; [exact Lg|].
    intros fr2 res2 H2.
    split; [|split; [|split; [|split]]].
    + intros Same b Hin.
      apply (in_capture_call _ _ _ b H2) in Hin. destruct Hin as [-> Hne].
      congruence.
    + intros Same b Hin.
      apply (in_good_call _ _ _ b H2) in Hin. destruct Hin as [-> Hne].
      congruence.
    + intros Other. apply (in_distance_call _ _ _ _ H2).
      split; [reflexivity | congruence].
    + intros Other. apply (in_capture_call _ _ _ _ H2).
      split; [reflexivity | congruence].
    + intros Other. apply (in_good_call _ _ _ _ H2).
      split; [reflexivity | congruence].
Qed.

(** C10.  A session starts with no distance status reported, and with
    [false] as the last reported face-good and capture-allowed values.  So
    the first processed frame calls [onFaceDistanceChange] with whatever
    status it arrives at; and as long as the frames compute [false] for
    face-good (for capture-allowed), none of them calls [onFaceStatusChange]
    ([onCaptureAllowedChange]), and the first frame that does call it
    computed [true] and passes [true]. *)
Theorem first_calls frs ress r' :
  Processes p initialRefs frs ress r' ->
  lastDistanceStatusRef initialRefs = None
  /\ lastGoodVisualRef initialRefs = false
  /\ lastCaptureAllowedRef initialRefs = false
  /\ (forall res rest, ress = res :: rest ->
        In (onFaceDistanceChange (statusOf res)) (calls res))
  /\ (forall pre post, ress = pre ++ post ->
        Forall (fun res => isGoodNow res = false) pre ->
        Forall (fun res => forall b, ~ In (onFaceStatusChange b) (calls res)) pre
        /\ (forall res rest b, post = res :: rest ->
              In (onFaceStatusChange b) (calls res) ->
              b = true /\ isGoodNow res = true))
  /\ (forall pre post, ress = pre ++ post ->
        Forall (fun res => captureAllowed res = false) pre ->
        Forall (fun res => forall b, ~ In (onCaptureAllowedChange b) (calls res)) pre
        /\ (forall res rest b, post = res :: rest ->
              In (onCaptureAllowedChange b) (calls res) ->
              b = true /\ captureAllowed res = true)).
Proof.
  intros HP.
  split; [reflexivity|]. split; [reflexivity|]. split; [reflexivity|].
  split; [|split].
  - intros res rest ->.
    inversion HP as [|r0 fr res0 frs0 ress0 r0' E _]; subst.
    apply (in_distance_call _ _ _ _ E). split; [reflexivity | discriminate].
  - assert (G : forall r frs ress r',
      Processes p r frs ress r' -> lastGoodVisualRef r = false ->
      forall pre post, ress = pre ++ post ->
        Forall (fun res => isGoodNow res = false) pre ->
        Forall (fun res => forall b, ~ In (onFaceStatusChange b) (calls res)) pre
        /\ (forall res rest b, post = res :: rest ->
              In (onFaceStatusChange b) (calls res) ->
              b = true /\ isGoodNow res = true)).
    { clear. intros r frs ress r' HP.
      induction HP as [r|r fr res frs ress r' E HP IH]; intros Hl pre post Eq Hall.
      - destruct pre; [|discriminate]. simpl in Eq; subst post.
        split; [constructor | discriminate].
      - destruct pre as [|x pre]; simpl in Eq.
        + subst post. split; [constructor|].
          intros res0 rest b [= <- <-] Hin.
          apply (in_good_call _ _ _ b E) in Hin. destruct Hin as [-> Hne].
          rewrite Hl in Hne. destruct (isGoodNow res); [split; reflexivity | congruence].
        + injection Eq as <- Eq. inversion Hall as [|y l Hx Hrest]; subst y l.
          destruct (frame_last _ _ _ E) as (_ & _ & Hg).
          destruct (IH (eq_trans Hg Hx) pre post Eq Hrest) as [F N].
          split; [|exact N]. constructor; [|exact F].
          intros b Hin. apply (in_good_call _ _ _ b E) in Hin. destruct Hin as [-> Hne].
          congruence. }
    exact (G _ _ _ _ HP eq_refl).
  - assert (G : forall r frs ress r',
      Processes p r frs ress r' -> lastCaptureAllowedRef r = false ->
      forall pre post, ress = pre ++ post ->
        Forall (fun res => captureAllowed res = false) pre ->
        Forall (fun res => forall b, ~ In (onCaptureAllowedChange b) (calls res)) pre
        /\ (forall res rest b, post = res :: rest ->
              In (onCaptureAllowedChange b) (calls res) ->
              b = true /\ captureAllowed res = true)).
    { clear. intros r frs ress r' HP.
      induction HP as [r|r fr res frs ress r' E HP IH]; intros Hl pre post Eq Hall.
      - destruct pre; [|discriminate]. simpl in Eq; subst post.
        split; [constructor | discriminate].
      - destruct pre as [|x pre]; simpl in Eq.
        + subst post. split; [constructor|].
          intros res0 rest b [= <- <-] Hin.
          apply (in_capture_call _ _ _ b E) in Hin. destruct Hin as [-> Hne].
          rewrite Hl in Hne.
          destruct (captureAllowed res); [split; reflexivity | congruence].
        + injection Eq as <- Eq. inversion Hall as [|y l Hx Hrest]; subst y l.
          destruct (frame_last _ _ _ E) as (_ & Hc & _).
          destruct (IH (eq_trans Hc Hx) pre post Eq Hrest) as [F N].
          split; [|exact N]. constructor; [|exact F].
          intros b Hin. apply (in_capture_call _ _ _ b E) in Hin. destruct Hin as [-> Hne].
          congruence. }
    exact (G _ _ _ _ HP eq_refl).
Qed.

End Signals.

(** ** The order of numbers

    [<] on binary64 numbers is a strict order, compatible with [<=]; NaN is
    below, above and equal to nothing. *)

Ltac compare_cases :=
  repeat match goal with
    | H : context [Z.compare ?a ?b] |- _ => destruct (Z.compare_spec a b); subst
    | |- context [Z.compare ?a ?b] => destruct (Z.compare_spec a b); subst
    end;
  repeat match goal with
    | H : context [Pos.compare_cont Eq ?a ?b] |- _ =>
        change (Pos.compare_cont Eq a b) with (Pos.compare a b) in H
    | |- context [Pos.compare_cont Eq ?a ?b] =>
        change (Pos.compare_cont Eq a b) with (Pos.compare a b)
    end;
  repeat match goal with
    | H : context [Pos.compare ?a ?b] |- _ => destruct (Pos.compare_spec a b); subst
    | |- context [Pos.compare ?a ?b] => destruct (Pos.compare_spec a b); subst
    end.

(** The comparison of the specification of binary64 numbers. *)
Lemma SFcompare_lt_le x y z :
  SFcompare x y = Some Lt ->
  SFcompare y z = Some Lt \/ SFcompare y z = Some Eq ->
  SFcompare x z = Some Lt.
Proof.
  destruct x as [sx|sx| |sx mx ex], y as [sy|sy| |sy my ey], z as [sz|sz| |sz mz ez];
    simpl; try discriminate;
    repeat match goal with s : bool |- _ => destruct s end;
    simpl; try discriminate; try reflexivity; intros H1 [H2|H2];
    try discriminate;
    compare_cases; simpl in *; try discriminate; try reflexivity; try lia.
Qed.

Lemma SFcompare_irrefl x : SFcompare x x <> Some Lt.
Proof.
  destruct x as [s|s| |s m e]; simpl; try discriminate;
    destruct s; try discriminate;
    rewrite Z.compare_refl;
    change (Pos.compare_cont Eq m m) with (Pos.compare m m);
    rewrite Pos.compare_refl; discriminate.
Qed.

Lemma ltb_leb_trans a b c :
  PrimFloat.ltb a b = true -> PrimFloat.leb b c = true -> PrimFloat.ltb a c = true.
Proof.
  rewrite !ltb_spec, leb_spec. unfold SFltb, SFleb.
  intros H1 H2.
  rewrite (SFcompare_lt_le (Prim2SF a) (Prim2SF b) (Prim2SF c)); [reflexivity | |].
  - destruct (SFcompare (Prim2SF a) (Prim2SF b)) as [[]|]; try discriminate; reflexivity.
  - destruct (SFcompare (Prim2SF b) (Prim2SF c)) as [[]|]; try discriminate; auto.
Qed.

Lemma ltb_trans a b c :
  PrimFloat.ltb a b = true -> PrimFloat.ltb b c = true -> PrimFloat.ltb a c = true.
Proof.
  rewrite !ltb_spec. unfold SFltb.
  intros H1 H2.
  rewrite (SFcompare_lt_le (Prim2SF a) (Prim2SF b) (Prim2SF c)); [reflexivity | |].
  - destruct (SFcompare (Prim2SF a) (Prim2SF b)) as [[]|]; try discriminate; reflexivity.
  - destruct (SFcompare (Prim2SF b) (Prim2SF c)) as [[]|]; try discriminate; auto.
Qed.

Lemma ltb_irrefl a : PrimFloat.ltb a a = false.
Proof.
  rewrite ltb_spec. unfold SFltb.
  pose proof (SFcompare_irrefl (Prim2SF a)).
  destruct (SFcompare (Prim2SF a) (Prim2SF a)) as [[]|]; congruence.
Qed.

(** ** The decisions of a frame with a face *)

Section Decisions.

Context {ops : NumberOps}.
Variable p : Props.

(** C4.  On a frame with a face whose distance status is [ok],
    [captureAllowed] is [true] when the updated [goodStreak] has reached
    [minFramesIn], else [false] when the updated [badStreak] has reached
    [minFramesOut], else the value reported last; that value is what the
    frame leaves as the last reported one.  With thresholds of at least one
    the two streak tests cannot both succeed.  From [goodStreak = 5] with
    [minFramesIn = 6], one more frame with OK geometry makes [goodStreak]
    6 and [captureAllowed] true, and reports [true] if [false] was reported
    last. *)
Theorem capture_hysteresis r fr res f :
  detect p r fr = Processed res ->
  seen res = Some f ->
  distanceStatus f = ok ->
  captureAllowed res =
    (if (minFramesIn p <=? goodStreakRef (refs res))%Z then true
     else if (minFramesOut p <=? badStreakRef (refs res))%Z then false
     else lastCaptureAllowedRef r)
  /\ lastCaptureAllowedRef (refs res) = captureAllowed res
  /\ ((minFramesIn p <= goodStreakRef (refs res))%Z -> captureAllowed res = true)
  /\ ((goodStreakRef (refs res) < minFramesIn p)%Z ->
      (minFramesOut p <= badStreakRef (refs res))%Z ->
      captureAllowed res = false)
  /\ ((goodStreakRef (refs res) < minFramesIn p)%Z ->
      (badStreakRef (refs res) < minFramesOut p)%Z ->
      captureAllowed res = lastCaptureAllowedRef r)
  /\ ((1 <= minFramesIn p)%Z -> (1 <= minFramesOut p)%Z ->
      ~ ((minFramesIn p <= goodStreakRef (refs res))%Z
         /\ (minFramesOut p <= badStreakRef (refs res))%Z))
  /\ (goodStreakRef r = 5%Z -> minFramesIn p = 6%Z -> geometryOk f = true ->
      goodStreakRef (refs res) = 6%Z
      /\ captureAllowed res = true
      /\ (lastCaptureAllowedRef r = false ->
          In (onCaptureAllowedChange true) (calls res))).
Proof.
  intros H Hs Hok.
  assert (Hcall := in_capture_call p r fr res true H).
  destruct (detect_Processed _ _ _ _ H) as [face rest le re f' _ _ _ Hs' _ S | _ Hs' _];
    [|congruence].
  assert (f' = f) by congruence. subst f'.
  destruct S as [_ _ _ _ Egood Egs Ebs Ea _ Elc _ _].
  unfold goodAfter in Egood. unfold allowedAfter in Ea.
  rewrite Hok in Egood, Ea. simpl in Egood, Ea.
  rewrite Egs, Ebs, Elc, Ea.
  destruct (isGoodNow res) eqn:G.
  - repeat split; intros; leb_cases; try lia; try reflexivity; try congruence.
    apply Hcall. split; congruence.
  - repeat split; intros; leb_cases; try lia; try reflexivity; try congruence.
Qed.

(** C6.  On a frame with a face the distance status is decided by the
    baseline as it stands after the calibration step of that frame.  With a
    baseline [b]: [tooFar] when [eyeDistance < b * 0.85], else [tooClose]
    when [eyeDistance > b * 1.2], else [ok].  Without one: [tooFar] when
    [relativeEyeDistance < minEyeRatio], else [tooClose] when
    [relativeEyeDistance > maxEyeRatio], else [ok].  The far test comes
    first; the two tests cannot both succeed, so that the status is
    [tooClose] exactly when the close test succeeds, as soon as
    [b * 1.2 < b * 0.85] is false (with a baseline) or
    [minEyeRatio <= maxEyeRatio] (without one).  A status other than [ok]
    forces [isGoodNow] and [captureAllowed] to [false].  With the baseline
    at 100 and the eyes 80 pixels apart the status is [tooFar] and
    [captureAllowed] is [false]. *)
Theorem distance_classified r fr res f :
  detect p r fr = Processed res ->
  seen res = Some f ->
  FAR_FACTOR = 0.85%float /\ CLOSE_FACTOR = 1.2%float
  /\ baselineEyePxRef (refs res) =
       match baselineEyePxRef r with
       | Some b => Some b
       | None =>
           if geometryOk f && (CALIBRATE_MIN_STREAK <=? calibratingStreakRef r + 1)%Z
           then Some (eyeDistance f) else None
       end
  /\ distanceStatus f =
       match baselineEyePxRef (refs res) with
       | Some b =>
           if Num.lt (eyeDistance f) (b * FAR_FACTOR)%float then tooFar
           else if Num.gt (eyeDistance f) (b * CLOSE_FACTOR)%float then tooClose
           else ok
       | None =>
           if Num.lt (relativeEyeDistance f) (minEyeRatio p) then tooFar
           else if Num.gt (relativeEyeDistance f) (maxEyeRatio p) then tooClose
           else ok
       end
  /\ (forall b, baselineEyePxRef (refs res) = Some b ->
        (distanceStatus f = tooFar <->
         Num.lt (eyeDistance f) (b * FAR_FACTOR)%float = true)
        /\ (distanceStatus f = tooClose <->
            Num.lt (eyeDistance f) (b * FAR_FACTOR)%float = false
            /\ Num.gt (eyeDistance f) (b * CLOSE_FACTOR)%float = true)
        /\ (distanceStatus f = ok <->
            Num.lt (eyeDistance f) (b * FAR_FACTOR)%float = false
            /\ Num.gt (eyeDistance f) (b * CLOSE_FACTOR)%float = false))
  /\ (baselineEyePxRef (refs res) = None ->
        (distanceStatus f = tooFar <->
         Num.lt (relativeEyeDistance f) (minEyeRatio p) = true)
        /\ (distanceStatus f = tooClose <->
            Num.lt (relativeEyeDistance f) (minEyeRatio p) = false
            /\ Num.gt (relativeEyeDistance f) (maxEyeRatio p) = true)
        /\ (distanceStatus f = ok <->
            Num.lt (relativeEyeDistance f) (minEyeRatio p) = false
            /\ Num.gt (relativeEyeDistance f) (maxEyeRatio p) = false))
  /\ (forall b, baselineEyePxRef (refs res) = Some b ->
        Num.lt (b * CLOSE_FACTOR)%float (b * FAR_FACTOR)%float = false ->
        (distanceStatus f = tooClose <->
         Num.gt (eyeDistance f) (b * CLOSE_FACTOR)%float = true))
  /\ (baselineEyePxRef (refs res) = None ->
        Num.le (minEyeRatio p) (maxEyeRatio p) = true ->
        (distanceStatus f = tooClose <->
         Num.gt (relativeEyeDistance f) (maxEyeRatio p) = true))
  /\ (distanceStatus f <> ok ->
        isGoodNow res = false
        /\ captureAllowed res = false
        /\ lastCaptureAllowedRef (refs res) = false)
  /\ (baselineEyePxRef r = Some 100%float -> eyeDistance f = 80%float ->
        distanceStatus f = tooFar /\ captureAllowed res = false).
Proof.
  intros H Hs.
  destruct (detect_Processed _ _ _ _ H) as [face rest le re f' _ _ _ Hs' _ S | _ Hs' _];
    [|congruence].
  assert (f' = f) by congruence. subst f'.
  destruct S as [_ _ Eb Est Egood _ _ Ea _ Elc _ _].
  unfold goodAfter in Egood. unfold allowedAfter in Ea.
  unfold classifyDistance in Est.
  split; [reflexivity|]. split; [reflexivity|]. split; [exact Eb|].
  split; [exact Est|].
  split; [|split; [|split; [|split; [|split]]]].
  - intros b Hb. rewrite Hb in Est. rewrite Est.
    destruct (Num.lt (eyeDistance f) (b * FAR_FACTOR)%float);
      destruct (Num.gt (eyeDistance f) (b * CLOSE_FACTOR)%float);
      repeat split; intros; try discriminate; try reflexivity;
      try (destruct H0; discriminate).
  - intros Hb. rewrite Hb in Est. rewrite Est.
    destruct (Num.lt (relativeEyeDistance f) (minEyeRatio p));
      destruct (Num.gt (relativeEyeDistance f) (maxEyeRatio p));
      repeat split; intros; try discriminate; try reflexivity;
      try (destruct H0; discriminate).
  - intros b Hb Hord. rewrite Hb in Est. rewrite Est.
    destruct (Num.lt (eyeDistance f) (b * FAR_FACTOR)%float) eqn:Far;
      destruct (Num.gt (eyeDistance f) (b * CLOSE_FACTOR)%float) eqn:Close;
      split; intros; try discriminate; try reflexivity.
    unfold Num.lt, Num.gt in *.
    rewrite (ltb_trans _ _ _ Close Far) in Hord. discriminate.
  - intros Hb Hord. rewrite Hb in Est. rewrite Est.
    destruct (Num.lt (relativeEyeDistance f) (minEyeRatio p)) eqn:Far;
      destruct (Num.gt (relativeEyeDistance f) (maxEyeRatio p)) eqn:Close;
      split; intros; try discriminate; try reflexivity.
    unfold Num.lt, Num.gt, Num.le in *.
    pose proof (ltb_trans _ _ _ (ltb_leb_trans _ _ _ Far Hord) Close) as Abs.
    rewrite ltb_irrefl in Abs. discriminate.
  - intros Hne. rewrite Elc, Ea, Egood.
    destruct (distanceStatus f); [congruence| |]; repeat split; reflexivity.
  - intros Hb He. rewrite Hb in Eb. rewrite Eb, He in Est.
    assert (Far : Num.lt 80%float (100 * FAR_FACTOR)%float = true)
      by (vm_compute; reflexivity).
    rewrite Far in Est. split; [exact Est|].
    rewrite Ea, Est. reflexivity.
Qed.

End Decisions.

(** ** Calibration and geometry *)

Section Calibration.

Context {ops : NumberOps}.
Variable p : Props.

(** While fewer than eight frames with OK geometry have been counted, the
    baseline stays unset and [calibratingStreak] counts the frames. *)
Lemma calibrating_run r frs ress r' :
  Processes p r frs ress r' ->
  baselineEyePxRef r = None ->
  Forall (fun res => exists f, seen res = Some f /\ geometryOk f = true) ress ->
  (calibratingStreakRef r + Z.of_nat (length frs) < CALIBRATE_MIN_STREAK)%Z ->
  Forall (fun res => baselineEyePxRef (refs res) = None) ress
  /\ baselineEyePxRef r' = None
  /\ calibratingStreakRef r' = (calibratingStreakRef r + Z.of_nat (length frs))%Z.
Proof.
  induction 1 as [r|r fr res frs ress r' E HP IH]; intros Hb Hall Hlt.
  - simpl. repeat split; [constructor | exact Hb | lia].
  - inversion Hall as [|x l (f & Hs & Hg) Hrest]; subst x l.
    destruct (detect_Processed _ _ _ _ E) as [face rest le re f' _ _ _ Hs' _ S | _ Hs' _];
      [|congruence].
    assert (f' = f) by congruence. subst f'.
    destruct S as [Ec _ Eb _ _ _ _ _ _ _ _ _].
    rewrite Hb, Hg in Eb. rewrite Hg in Ec. simpl in Eb.
    change (length (fr :: frs)) with (S (length frs)) in Hlt.
    destruct (Z.leb_spec CALIBRATE_MIN_STREAK (calibratingStreakRef r + 1)) as [Hge|_];
      [lia|].
    destruct IH as (F & Hb' & Hc'); [exact Eb | exact Hrest | lia |].
    repeat split; [constructor; assumption | exact Hb' |].
    rewrite Hc', Ec. change (length (fr :: frs)) with (S (length frs)). lia.
Qed.

(** C7.  From refs with no baseline and [calibratingStreak = 0], eight
    frames in a row with OK geometry (whatever their distance status, so in
    particular when it is [ok]) leave [calibratingStreak = 8]; the baseline
    is still unset after each of the first seven and is set by the eighth,
    to the eye distance of that eighth frame. *)
Theorem calibration_after_eight r frs ress r' :
  baselineEyePxRef r = None ->
  calibratingStreakRef r = 0%Z ->
  Processes p r frs ress r' ->
  length frs = 8%nat ->
  Forall (fun res => exists f, seen res = Some f /\ geometryOk f = true) ress ->
  calibratingStreakRef r' = 8%Z
  /\ exists ress7 res8 f8,
       ress = ress7 ++ [res8]
       /\ length ress7 = 7%nat
       /\ Forall (fun res => baselineEyePxRef (refs res) = None) ress7
       /\ seen res8 = Some f8
       /\ refs res8 = r'
       /\ baselineEyePxRef r' = Some (eyeDistance f8).
Proof.
  intros Hb Hc HP Hlen Hall.
  rewrite <- (firstn_skipn 7 frs) in HP.
  destruct (Processes_app _ _ _ _ _ _ HP) as (ress7 & ress1 & rm & -> & H7 & H1).
  assert (L7 : length (firstn 7 frs) = 7%nat) by (rewrite length_firstn; lia).
  assert (L1 : length (skipn 7 frs) = 1%nat) by (rewrite length_skipn; lia).
  apply Forall_app in Hall. destruct Hall as [Hall7 Hall1].
  destruct (calibrating_run _ _ _ _ H7 Hb Hall7) as (F7 & Hb7 & Hc7).
  { rewrite Hc, L7. unfold CALIBRATE_MIN_STREAK. lia. }
  rewrite Hc, L7 in Hc7. simpl in Hc7.
  destruct (skipn 7 frs) as [|f8 [|? ?]]; try discriminate.
  inversion H1 as [|r0 fr0 res8 frs0 ress0 r0' E Hnil]; subst.
  inversion Hnil; subst.
  inversion Hall1 as [|x l (f & Hs & Hg) _]; subst x l.
  destruct (detect_Processed _ _ _ _ E) as [face rest le re f' _ _ _ Hs' _ S | _ Hs' _];
    [|congruence].
  assert (f' = f) by congruence. subst f'.
  destruct S as [Ec _ Eb _ _ _ _ _ _ _ _ _].
  rewrite Hb7, Hg, Hc7 in Eb. rewrite Hg, Hc7 in Ec. simpl in Eb, Ec.
  split; [exact Ec|].
  exists ress7, res8, f. repeat split; try assumption.
  rewrite (Processes_length _ _ _ _ _ H7). exact L7.
Qed.

Lemma countInside_from kps cx cy rx ry : forall n,
  fold_left
    (fun inside k =>
       if isInsideEllipse (Keypoint.x k) (Keypoint.y k) cx cy rx ry
       then (inside + 1)%nat else inside)
    kps n
  = (n + length (filter
                   (fun k => isInsideEllipse (Keypoint.x k) (Keypoint.y k) cx cy rx ry)
                   kps))%nat.
Proof.
  induction kps as [|k kps IH]; intros n; simpl; [lia|].
  rewrite IH.
  destruct (isInsideEllipse (Keypoint.x k) (Keypoint.y k) cx cy rx ry); simpl; lia.
Qed.

Lemma countInside_filter kps cx cy rx ry :
  countInside kps cx cy rx ry =
  length (filter
            (fun k => isInsideEllipse (Keypoint.x k) (Keypoint.y k) cx cy rx ry)
            kps).
Proof. unfold countInside. now rewrite countInside_from. Qed.

(** C8.  On a frame with a face, the condition of line 192 is
    [boxOk && fracOk && confidenceOk].  [boxOk] is true when
    [boxInsideRequired] is off, and otherwise says that the four corners of
    the bounding box of the landmarks (the least and the greatest x and y)
    pass the ellipse test [(x-cx)^2/rx^2 + (y-cy)^2/ry^2 <= 1]; [fracOk]
    compares the number of landmarks that pass the test, divided by the
    number of landmarks, with [percentInsideRequired]; [confidenceOk] is
    true without a confidence value and otherwise says that it is above
    0.95.  The condition decides the calibration branch and, when the
    distance status is [ok], is [isGoodNow].  With [boxInsideRequired] off,
    a sufficient fraction and an acceptable confidence make it true. *)
Theorem geometry_ok r fr res f :
  detect p r fr = Processed res ->
  seen res = Some f ->
  exists face rest,
    predictions fr = face :: rest
    /\ let kps := keypoints face in
       let cx := centerX fr in
       let cy := centerY fr in
       let rx := radiusX p fr in
       let ry := radiusY p fr in
       let inside x y :=
         Num.le (pow2 (x - cx) / pow2 rx + pow2 (y - cy) / pow2 ry)%float 1%float in
       let loX := Num.Math_min (map Keypoint.x kps) in
       let hiX := Num.Math_max (map Keypoint.x kps) in
       let loY := Num.Math_min (map Keypoint.y kps) in
       let hiY := Num.Math_max (map Keypoint.y kps) in
       geometryOk f = boxOk f && fracOk f && confidenceOk f
       /\ boxOk f =
            (if boxInsideRequired p
             then inside loX loY && inside hiX loY && inside loX hiY && inside hiX hiY
             else true)
       /\ fracOk f =
            Num.ge
              (Num.of_nat
                 (length (filter (fun k => inside (Keypoint.x k) (Keypoint.y k)) kps))
               / Num.of_nat (length kps))%float
              (percentInsideRequired p)
       /\ confidenceOk f =
            match faceInViewConfidence face with
            | None => true
            | Some c => Num.gt c 0.95%float
            end
       /\ calibratingStreakRef (refs res) =
            (if geometryOk f then calibratingStreakRef r + 1 else 0)%Z
       /\ (distanceStatus f = ok -> isGoodNow res = geometryOk f)
       /\ (boxInsideRequired p = false -> fracOk f = true -> confidenceOk f = true ->
           geometryOk f = true).
Proof.
  intros H Hs.
  destruct (detect_Processed _ _ _ _ H) as [face rest le re f' Ep _ _ Hs' G S | _ Hs' _];
    [|congruence].
  assert (f' = f) by congruence. subst f'.
  exists face, rest. split; [exact Ep|].
  destruct G as [_ _ Ebox Efrac Econf].
  destruct S as [Ec _ _ _ Egood _ _ _ _ _ _ _].
  cbv zeta.
  split; [reflexivity|].
  split.
  { rewrite Ebox. unfold isBoundingBoxInsideEllipse, getBoundingBox, corners,
      isInsideEllipse; simpl.
    destruct (boxInsideRequired p); [|reflexivity].
    now rewrite andb_true_r, !andb_assoc. }
  split.
  { rewrite Efrac. unfold fractionInsideEllipse. rewrite countInside_filter.
    reflexivity. }
  split; [exact Econf|].
  split; [exact Ec|].
  split.
  { intros Hok. rewrite Egood. unfold goodAfter. now rewrite Hok. }
  intros Hbox Hf Hc. unfold geometryOk.
  rewrite Ebox, Hbox, Hf, Hc. reflexivity.
Qed.

End Calibration.

(** ** When capture-allowed changes *)

Section Transitions.

Context {ops : NumberOps}.
Variable p : Props.

(** C1, as amended.  In a session, the frame leaves its [captureAllowed] as
    the last reported value.  That value goes from [false] to [true] only
    on a frame with a face whose distance status is [ok] and on which
    [goodStreak] has reached [minFramesIn]: it is then exactly
    [minFramesIn], and the geometry is OK, when [minFramesIn] is at least
    one.  It goes from [true] to [false] only on a frame without a face or
    with a distance status other than [ok], which force it to [false]
    whatever the streaks are, or on a frame with a face and status [ok] on
    which [goodStreak] is below [minFramesIn] and [badStreak] has reached
    [minFramesOut]: it is then exactly [minFramesOut] when both thresholds
    are at least one. *)
Theorem capture_transitions r fr res :
  Reachable p r ->
  detect p r fr = Processed res ->
  lastCaptureAllowedRef (refs res) = captureAllowed res
  /\ (seen res = None -> captureAllowed res = false)
  /\ (forall f, seen res = Some f -> distanceStatus f <> ok ->
        captureAllowed res = false)
  /\ (lastCaptureAllowedRef r = false -> captureAllowed res = true ->
        exists f,
          seen res = Some f
          /\ distanceStatus f = ok
          /\ (minFramesIn p <= goodStreakRef (refs res))%Z
          /\ ((1 <= minFramesIn p)%Z ->
              goodStreakRef (refs res) = minFramesIn p /\ geometryOk f = true))
  /\ (lastCaptureAllowedRef r = true -> captureAllowed res = false ->
        seen res = None
        \/ (exists f, seen res = Some f /\ distanceStatus f <> ok)
        \/ (exists f,
              seen res = Some f
              /\ distanceStatus f = ok
              /\ (goodStreakRef (refs res) < minFramesIn p)%Z
              /\ (minFramesOut p <= badStreakRef (refs res))%Z
              /\ ((1 <= minFramesIn p)%Z -> (1 <= minFramesOut p)%Z ->
                  badStreakRef (refs res) = minFramesOut p
                  /\ geometryOk f = false))).
Proof.
  intros Hr H.
  apply Reachable_Inv in Hr. destruct Hr as [Hg Hb _ _ _ _ Hin Hout].
  destruct (detect_Processed _ _ _ _ H) as [face rest le re f _ _ _ Hs _ S | _ Hs S].
  - destruct S as [_ _ _ _ Egood Egs Ebs Ea _ Elc _ _].
    unfold goodAfter in Egood. unfold allowedAfter in Ea.
    split; [exact Elc|]. split; [congruence|].
    split.
    { intros f' Hs' Hne. assert (f' = f) by congruence. subst f'.
      rewrite Ea. destruct (distanceStatus f); [congruence | reflexivity | reflexivity]. }
    split.
    + intros Hl Ht. exists f. rewrite Ht in Ea.
      destruct (distanceStatus f); simpl in *; try discriminate.
      rewrite Egs. split; [exact Hs|]. split; [reflexivity|].
      destruct (isGoodNow res); leb_cases; try congruence; try lia.
      split; [assumption|]. intros Hi. split; [|congruence].
      destruct (Z.le_gt_cases (minFramesIn p) (goodStreakRef r)) as [Hge|Hlt];
        [specialize (Hin Hi Hge); congruence | lia].
    + intros Hl Hf. rewrite Hf in Ea.
      destruct (distanceStatus f) eqn:Hd; simpl in *.
      * right; right. exists f. rewrite Egs, Ebs.
        split; [exact Hs|]. split; [exact Hd|].
        destruct (isGoodNow res); leb_cases; try congruence; try lia.
        split; [assumption|]. split; [assumption|]. intros Hi Ho.
        split; [|congruence].
        destruct (Z.le_gt_cases (minFramesOut p) (badStreakRef r)) as [Hge|Hlt];
          [specialize (Hout Hi Ho Hge); congruence | lia].
      * right; left. exists f. split; [exact Hs | congruence].
      * right; left. exists f. split; [exact Hs | congruence].
  - destruct S as [_ _ _ _ Ea _ _ _ Elc _ _].
    split; [congruence|]. split; [intros _; exact Ea|].
    split; [congruence|].
    split; [congruence|].
    intros _ _. left. exact Hs.
Qed.

End Transitions.

(** C1, as the specification words it, does not hold.  Six well-placed
    frames have raised capture-allowed; one frame without a face then drops
    it, with [badStreak] at 1 and [minFramesOut] at 3. *)
Lemma capture_dropped_at_once :
  detect (ops := Binary64Ops) defaultProps (after (repeat (faceFrame 40) 6)) noFaceFrame
  = Processed (sample defaultProps (after (repeat (faceFrame 40) 6)) noFaceFrame)
  /\ seen (sample defaultProps (after (repeat (faceFrame 40) 6)) noFaceFrame) = None
  /\ lastCaptureAllowedRef (after (repeat (faceFrame 40) 6)) = true
  /\ captureAllowed (sample defaultProps (after (repeat (faceFrame 40) 6)) noFaceFrame)
     = false
  /\ In (onCaptureAllowedChange false)
        (calls (sample defaultProps (after (repeat (faceFrame 40) 6)) noFaceFrame))
  /\ badStreakRef
       (refs (sample defaultProps (after (repeat (faceFrame 40) 6)) noFaceFrame))
     = 1%Z
  /\ minFramesOut defaultProps = 3%Z.
Proof.
  vm_compute. repeat split; try reflexivity. right; right; left; reflexivity.
Qed.

(** The same happens on a frame with a face that is too close (the eyes 80
    pixels apart, a ratio of about 0.27). *)
Lemma capture_dropped_when_too_close :
  detect (ops := Binary64Ops) defaultProps (after (repeat (faceFrame 40) 6)) (faceFrame 80)
  = Processed (sample defaultProps (after (repeat (faceFrame 40) 6)) (faceFrame 80))
  /\ statusOf (sample defaultProps (after (repeat (faceFrame 40) 6)) (faceFrame 80))
     = tooClose
  /\ lastCaptureAllowedRef (after (repeat (faceFrame 40) 6)) = true
  /\ captureAllowed (sample defaultProps (after (repeat (faceFrame 40) 6)) (faceFrame 80))
     = false
  /\ badStreakRef
       (refs (sample defaultProps (after (repeat (faceFrame 40) 6)) (faceFrame 80)))
     = 1%Z.
Proof. vm_compute. repeat split; reflexivity. Qed.

Lemma capture_transitions_witness :
  Reachable (ops := Binary64Ops) defaultProps (after (repeat (faceFrame 40) 5))
  /\ detect (ops := Binary64Ops) defaultProps (after (repeat (faceFrame 40) 5)) (faceFrame 40)
     = Processed (sample defaultProps (after (repeat (faceFrame 40) 5)) (faceFrame 40))
  /\ lastCaptureAllowedRef (after (repeat (faceFrame 40) 5)) = false
  /\ captureAllowed (sample defaultProps (after (repeat (faceFrame 40) 5)) (faceFrame 40))
     = true
  /\ exists f,
       seen (sample defaultProps (after (repeat (faceFrame 40) 5)) (faceFrame 40)) = Some f
       /\ distanceStatus f = ok
       /\ (minFramesIn defaultProps
           <= goodStreakRef
                (refs (sample defaultProps (after (repeat (faceFrame 40) 5)) (faceFrame 40))))%Z
       /\ ((1 <= minFramesIn defaultProps)%Z ->
           goodStreakRef
             (refs (sample defaultProps (after (repeat (faceFrame 40) 5)) (faceFrame 40)))
           = minFramesIn defaultProps
           /\ geometryOk f = true).
Proof.
  assert (Hr : Reachable (ops := Binary64Ops) defaultProps (after (repeat (faceFrame 40) 5)))
    by (apply Reachable_runFrames; constructor).
  assert (H : detect (ops := Binary64Ops) defaultProps
                (after (repeat (faceFrame 40) 5)) (faceFrame 40)
              = Processed (sample defaultProps (after (repeat (faceFrame 40) 5)) (faceFrame 40)))
    by (vm_compute; reflexivity).
  assert (Hl : lastCaptureAllowedRef (after (repeat (faceFrame 40) 5)) = false)
    by (vm_compute; reflexivity).
  assert (Ht : captureAllowed
                 (sample defaultProps (after (repeat (faceFrame 40) 5)) (faceFrame 40))
               = true)
    by (vm_compute; reflexivity).
  split; [exact Hr|]. split; [exact H|]. split; [exact Hl|]. split; [exact Ht|].
  exact (proj1 (proj2 (proj2 (proj2
           (@capture_transitions Binary64Ops defaultProps _ _ _ Hr H)))) Hl Ht).
Defined.

(** With a threshold below one the streak that raises capture-allowed need
    not be the threshold: under [minFramesIn = 0] the first well-placed
    frame raises it with [goodStreak] at 1. *)
Lemma eager_threshold_raises_at_once :
  detect (ops := Binary64Ops) eagerProps initialRefs (faceFrame 40)
  = Processed (sample eagerProps initialRefs (faceFrame 40))
  /\ captureAllowed (sample eagerProps initialRefs (faceFrame 40)) = true
  /\ goodStreakRef (refs (sample eagerProps initialRefs (faceFrame 40))) = 1%Z.
Proof. vm_compute. repeat split; reflexivity. Qed.

(** ** The theorems at the sample frames *)

Lemma calls_on_change_witness :
  detect (ops := Binary64Ops) defaultProps initialRefs (faceFrame 40)
  = Processed (sample defaultProps initialRefs (faceFrame 40))
  /\ calls (sample defaultProps initialRefs (faceFrame 40)) =
       (if statusDiffers (statusOf (sample defaultProps initialRefs (faceFrame 40)))
             (lastDistanceStatusRef initialRefs)
        then [onFaceDistanceChange (statusOf (sample defaultProps initialRefs (faceFrame 40)))]
        else [])
       ++ [onKeypointsDetected (forwarded (faceFrame 40))]
       ++ (if negb (Bool.eqb (captureAllowed (sample defaultProps initialRefs (faceFrame 40)))
                      (lastCaptureAllowedRef initialRefs))
           then [onCaptureAllowedChange
                   (captureAllowed (sample defaultProps initialRefs (faceFrame 40)))]
           else [])
       ++ (if negb (Bool.eqb (isGoodNow (sample defaultProps initialRefs (faceFrame 40)))
                      (lastGoodVisualRef initialRefs))
           then [onFaceStatusChange (isGoodNow (sample defaultProps initialRefs (faceFrame 40)))]
           else [])
  /\ calls (sample defaultProps initialRefs (faceFrame 40)) =
       [onFaceDistanceChange ok;
        onKeypointsDetected (Some (eyesApart 40));
        onFaceStatusChange true]
  /\ lastDistanceStatusRef (refs (sample defaultProps initialRefs (faceFrame 40)))
     = Some (statusOf (sample defaultProps initialRefs (faceFrame 40)))
  /\ lastCaptureAllowedRef (refs (sample defaultProps initialRefs (faceFrame 40)))
     = captureAllowed (sample defaultProps initialRefs (faceFrame 40))
  /\ lastGoodVisualRef (refs (sample defaultProps initialRefs (faceFrame 40)))
     = isGoodNow (sample defaultProps initialRefs (faceFrame 40))
  /\ detect (ops := Binary64Ops) defaultProps
       (refs (sample defaultProps initialRefs (faceFrame 40))) (faceFrame 40)
     = Processed (sample defaultProps
                    (refs (sample defaultProps initialRefs (faceFrame 40))) (faceFrame 40))
  /\ (forall b,
        ~ In (onFaceStatusChange b)
            (calls (sample defaultProps
                      (refs (sample defaultProps initialRefs (faceFrame 40)))
                      (faceFrame 40))))
  /\ calls (sample defaultProps
              (refs (sample defaultProps initialRefs (faceFrame 40))) (faceFrame 40))
     = [onKeypointsDetected (Some (eyesApart 40))].
Proof.
  assert (H : detect (ops := Binary64Ops) defaultProps initialRefs (faceFrame 40)
              = Processed (sample defaultProps initialRefs (faceFrame 40)))
    by (vm_compute; reflexivity).
  assert (H2 : detect (ops := Binary64Ops) defaultProps
                 (refs (sample defaultProps initialRefs (faceFrame 40))) (faceFrame 40)
               = Processed (sample defaultProps
                              (refs (sample defaultProps initialRefs (faceFrame 40)))
                              (faceFrame 40)))
    by (vm_compute; reflexivity).
  assert (Same : isGoodNow (sample defaultProps
                              (refs (sample defaultProps initialRefs (faceFrame 40)))
                              (faceFrame 40))
                 = isGoodNow (sample defaultProps initialRefs (faceFrame 40)))
    by (vm_compute; reflexivity).
  destruct (@calls_on_change Binary64Ops defaultProps _ _ _ H)
    as (Hcalls & _ & _ & _ & _ & _ & _ & Ld & Lc & Lg & Next).
  split; [exact H|]. split; [exact Hcalls|].
  split; [vm_compute; reflexivity|].
  split; [exact Ld|]. split; [exact Lc|]. split; [exact Lg|].
  split; [exact H2|].
  split; [exact (proj1 (proj2 (Next _ _ H2)) Same)|].
  vm_compute; reflexivity.
Defined.

Lemma first_calls_witness :
  Processes (ops := Binary64Ops) defaultProps initialRefs
    [faceFrame 40; noFaceFrame]
    (runResults (ops := Binary64Ops) defaultProps initialRefs [faceFrame 40; noFaceFrame])
    (after [faceFrame 40; noFaceFrame])
  /\ In (onFaceDistanceChange (statusOf (sample defaultProps initialRefs (faceFrame 40))))
        (calls (sample defaultProps initialRefs (faceFrame 40))).
Proof.
  assert (HP : Processes (ops := Binary64Ops) defaultProps initialRefs
                 [faceFrame 40; noFaceFrame]
                 (runResults (ops := Binary64Ops) defaultProps initialRefs
                    [faceFrame 40; noFaceFrame])
                 (after [faceFrame 40; noFaceFrame]))
    by (apply Processes_run; vm_compute; reflexivity).
  split; [exact HP|].
  refine (proj1 (proj2 (proj2 (proj2
            (@first_calls Binary64Ops defaultProps _ _ _ HP))))
            (sample defaultProps initialRefs (faceFrame 40))
            [sample defaultProps (refs (sample defaultProps initialRefs (faceFrame 40)))
               noFaceFrame]
            _).
  vm_compute; reflexivity.
Defined.

Lemma capture_hysteresis_witness :
  detect (ops := Binary64Ops) defaultProps (after (repeat (faceFrame 40) 5)) (faceFrame 40)
  = Processed (sample defaultProps (after (repeat (faceFrame 40) 5)) (faceFrame 40))
  /\ goodStreakRef (after (repeat (faceFrame 40) 5)) = 5%Z
  /\ minFramesIn defaultProps = 6%Z
  /\ lastCaptureAllowedRef (after (repeat (faceFrame 40) 5)) = false
  /\ goodStreakRef
       (refs (sample defaultProps (after (repeat (faceFrame 40) 5)) (faceFrame 40)))
     = 6%Z
  /\ captureAllowed (sample defaultProps (after (repeat (faceFrame 40) 5)) (faceFrame 40))
     = true
  /\ In (onCaptureAllowedChange true)
        (calls (sample defaultProps (after (repeat (faceFrame 40) 5)) (faceFrame 40))).
Proof.
  set (r := after (repeat (faceFrame 40) 5)).
  set (res := sample defaultProps r (faceFrame 40)).
  assert (H : detect (ops := Binary64Ops) defaultProps r (faceFrame 40) = Processed res)
    by (vm_compute; reflexivity).
  assert (Hs : seen res = Some (sampleLocals res)) by (vm_compute; reflexivity).
  assert (Hok : distanceStatus (sampleLocals res) = ok) by (vm_compute; reflexivity).
  assert (H5 : goodStreakRef r = 5%Z) by (vm_compute; reflexivity).
  assert (H6 : minFramesIn defaultProps = 6%Z) by reflexivity.
  assert (Hg : geometryOk (sampleLocals res) = true) by (vm_compute; reflexivity).
  assert (Hl : lastCaptureAllowedRef r = false) by (vm_compute; reflexivity).
  destruct (@capture_hysteresis Binary64Ops defaultProps _ _ _ _ H Hs Hok)
    as (_ & _ & _ & _ & _ & _ & Last).
  destruct (Last H5 H6 Hg) as (G6 & Ht & Call).
  exact (conj H (conj H5 (conj H6 (conj Hl (conj G6 (conj Ht (Call Hl))))))).
Defined.

Lemma distance_classified_witness :
  detect (ops := Binary64Ops) defaultProps calibratedAt100 (faceFrame 80)
  = Processed (sample defaultProps calibratedAt100 (faceFrame 80))
  /\ baselineEyePxRef calibratedAt100 = Some 100%float
  /\ eyeDistance (sampleLocals (sample defaultProps calibratedAt100 (faceFrame 80)))
     = 80%float
  /\ distanceStatus (sampleLocals (sample defaultProps calibratedAt100 (faceFrame 80)))
     = tooFar
  /\ captureAllowed (sample defaultProps calibratedAt100 (faceFrame 80)) = false.
Proof.
  set (res := sample defaultProps calibratedAt100 (faceFrame 80)).
  assert (H : detect (ops := Binary64Ops) defaultProps calibratedAt100 (faceFrame 80)
              = Processed res)
    by (vm_compute; reflexivity).
  assert (Hs : seen res = Some (sampleLocals res)) by (vm_compute; reflexivity).
  assert (Hb : baselineEyePxRef calibratedAt100 = Some 100%float)
    by (vm_compute; reflexivity).
  assert (He : eyeDistance (sampleLocals res) = 80%float) by (vm_compute; reflexivity).
  destruct (@distance_classified Binary64Ops defaultProps _ _ _ _ H Hs)
    as (_ & _ & _ & _ & _ & _ & _ & _ & _ & Last).
  exact (conj H (conj Hb (conj He (Last Hb He)))).
Defined.

Lemma calibration_after_eight_witness :
  Processes (ops := Binary64Ops) defaultProps initialRefs (repeat (faceFrame 40) 8)
    (runResults (ops := Binary64Ops) defaultProps initialRefs (repeat (faceFrame 40) 8))
    calibrated
  /\ calibratingStreakRef calibrated = 8%Z
  /\ exists ress7 res8 f8,
       runResults (ops := Binary64Ops) defaultProps initialRefs (repeat (faceFrame 40) 8)
       = ress7 ++ [res8]
       /\ length ress7 = 7%nat
       /\ Forall (fun res => baselineEyePxRef (refs res) = None) ress7
       /\ seen res8 = Some f8
       /\ refs res8 = calibrated
       /\ baselineEyePxRef calibrated = Some (eyeDistance f8).
Proof.
  assert (HP : Processes (ops := Binary64Ops) defaultProps initialRefs
                 (repeat (faceFrame 40) 8)
                 (runResults (ops := Binary64Ops) defaultProps initialRefs
                    (repeat (faceFrame 40) 8))
                 calibrated)
    by (apply Processes_run; vm_compute; reflexivity).
  assert (HF : Forall (fun res => exists f, seen res = Some f /\ geometryOk f = true)
                 (runResults (ops := Binary64Ops) defaultProps initialRefs
                    (repeat (faceFrame 40) 8))).
  { apply allGeometryOk_Forall. vm_compute; reflexivity. }
  split; [exact HP|].
  exact (@calibration_after_eight Binary64Ops defaultProps
           initialRefs (repeat (faceFrame 40) 8) _ calibrated
           eq_refl eq_refl HP eq_refl HF).
Defined.

Lemma geometry_ok_witness :
  detect (ops := Binary64Ops) looseBoxProps initialRefs (strayFrame None)
  = Processed (sample looseBoxProps initialRefs (strayFrame None))
  /\ boxInsideRequired looseBoxProps = false
  /\ isBoundingBoxInsideEllipse (ops := Binary64Ops) strayLandmarks
       (centerX (strayFrame None)) (centerY (strayFrame None))
       (radiusX looseBoxProps (strayFrame None)) (radiusY looseBoxProps (strayFrame None))
     = false
  /\ fractionInsideEllipse (ops := Binary64Ops) strayLandmarks
       (centerX (strayFrame None)) (centerY (strayFrame None))
       (radiusX looseBoxProps (strayFrame None)) (radiusY looseBoxProps (strayFrame None))
     = 0.96%float
  /\ percentInsideRequired looseBoxProps = 0.95%float
  /\ geometryOk (sampleLocals (sample looseBoxProps initialRefs (strayFrame None))) = true.
Proof.
  set (res := sample looseBoxProps initialRefs (strayFrame None)).
  assert (H : detect (ops := Binary64Ops) looseBoxProps initialRefs (strayFrame None)
              = Processed res)
    by (vm_compute; reflexivity).
  assert (Hs : seen res = Some (sampleLocals res)) by (vm_compute; reflexivity).
  assert (Hf : fracOk (sampleLocals res) = true) by (vm_compute; reflexivity).
  assert (Hc : confidenceOk (sampleLocals res) = true) by (vm_compute; reflexivity).
  destruct (@geometry_ok Binary64Ops looseBoxProps _ _ _ _ H Hs)
    as (face & rest & _ & _ & _ & _ & _ & _ & _ & Last).
  split; [exact H|]. split; [reflexivity|].
  split; [vm_compute; reflexivity|]. split; [vm_compute; reflexivity|].
  split; [reflexivity|].
  exact (Last eq_refl Hf Hc).
Defined.

(** ** More on the order of numbers *)

Definition SFle (x y : spec_float) : Prop :=
  SFcompare x y = Some Lt \/ SFcompare x y = Some Eq.

Lemma SFle_trans x y z : SFle x y -> SFle y z -> SFle x z.
Proof.
  unfold SFle.
  destruct x as [sx|sx| |sx mx ex], y as [sy|sy| |sy my ey], z as [sz|sz| |sz mz ez];
    simpl;
    repeat match goal with s : bool |- _ => destruct s end;
    simpl; intros [H1|H1] [H2|H2]; try discriminate; auto;
    compare_cases; simpl in *; try discriminate; auto; try lia.
Qed.

Lemma SFcompare_refl x : x <> S754_nan -> SFcompare x x = Some Eq.
Proof.
  destruct x as [s|s| |s m e]; simpl; try congruence; intros _;
    destruct s; try reflexivity;
    rewrite Z.compare_refl;
    change (Pos.compare_cont Eq m m) with (Pos.compare m m);
    rewrite Pos.compare_refl; reflexivity.
Qed.

Lemma SFcompare_total x y :
  x <> S754_nan -> y <> S754_nan ->
  SFcompare x y = Some Lt \/ SFle y x.
Proof.
  unfold SFle.
  destruct x as [sx|sx| |sx mx ex], y as [sy|sy| |sy my ey];
    simpl; try congruence; intros _ _;
    repeat match goal with s : bool |- _ => destruct s end;
    simpl; auto;
    compare_cases; simpl in *; auto; try lia.
Qed.

Lemma is_nan_spec x : PrimFloat.is_nan x = true <-> Prim2SF x = S754_nan.
Proof.
  unfold PrimFloat.is_nan. rewrite eqb_spec. unfold SFeqb.
  split.
  - intros H. destruct (Prim2SF x) eqn:E; try reflexivity;
      rewrite SFcompare_refl in H by congruence; discriminate.
  - intros ->. reflexivity.
Qed.

Lemma not_nan_spec x : PrimFloat.is_nan x = false <-> Prim2SF x <> S754_nan.
Proof.
  rewrite <- is_nan_spec. destruct (PrimFloat.is_nan x); split; congruence.
Qed.

Lemma leb_SFle a b : PrimFloat.leb a b = true <-> SFle (Prim2SF a) (Prim2SF b).
Proof.
  rewrite leb_spec. unfold SFleb, SFle.
  destruct (SFcompare (Prim2SF a) (Prim2SF b)) as [[]|]; split; intros H;
    try reflexivity; try discriminate; auto;
    destruct H; discriminate.
Qed.

Lemma leb_refl a : PrimFloat.is_nan a = false -> PrimFloat.leb a a = true.
Proof.
  intros H. apply leb_SFle. right. apply SFcompare_refl. now apply not_nan_spec.
Qed.

Lemma leb_trans a b c :
  PrimFloat.leb a b = true -> PrimFloat.leb b c = true -> PrimFloat.leb a c = true.
Proof. rewrite !leb_SFle. apply SFle_trans. Qed.

Lemma ltb_leb a b : PrimFloat.ltb a b = true -> PrimFloat.leb a b = true.
Proof.
  rewrite ltb_spec, leb_spec. unfold SFltb, SFleb.
  destruct (SFcompare (Prim2SF a) (Prim2SF b)) as [[]|]; congruence.
Qed.

Lemma not_ltb_leb a b :
  PrimFloat.is_nan a = false -> PrimFloat.is_nan b = false ->
  PrimFloat.ltb a b = false -> PrimFloat.leb b a = true.
Proof.
  intros Ha Hb. rewrite ltb_spec. unfold SFltb. intros H.
  apply leb_SFle.
  destruct (SFcompare_total (Prim2SF a) (Prim2SF b)) as [E|E];
    [now apply not_nan_spec | now apply not_nan_spec | | exact E].
  rewrite E in H. discriminate.
Qed.

Lemma leb_nan_r a b : PrimFloat.is_nan b = true -> PrimFloat.leb a b = false.
Proof.
  intros H. apply is_nan_spec in H. rewrite leb_spec, H. unfold SFleb.
  now destruct (Prim2SF a).
Qed.

Lemma ltb_nan_r a b : PrimFloat.is_nan b = true -> PrimFloat.ltb a b = false.
Proof.
  intros H. apply is_nan_spec in H. rewrite ltb_spec, H. unfold SFltb.
  now destruct (Prim2SF a).
Qed.

Lemma ltb_nan_l a b : PrimFloat.is_nan a = true -> PrimFloat.ltb a b = false.
Proof.
  intros H. apply is_nan_spec in H. rewrite ltb_spec, H. reflexivity.
Qed.

Lemma mul_nan_l a b : PrimFloat.is_nan a = true -> PrimFloat.is_nan (a * b) = true.
Proof.
  rewrite !is_nan_spec, mul_spec. intros ->. reflexivity.
Qed.

Lemma div_nan_l a b : PrimFloat.is_nan a = true -> PrimFloat.is_nan (a / b) = true.
Proof.
  rewrite !is_nan_spec, div_spec. intros ->. reflexivity.
Qed.

Lemma classify_zero a (s : bool) :
  classify a = (if s then NZero else PZero) -> Prim2SF a = S754_zero s.
Proof.
  rewrite classify_spec. unfold SF64classify, SFclassify.
  destruct (Prim2SF a) as [[]|[]| |[] m e]; destruct s; intros H;
    try reflexivity; try discriminate;
    destruct (Z.pos (digits2_pos m) =? prec)%Z; discriminate.
Qed.

Lemma zeros_leb a b :
  classify a = NZero -> classify b = PZero -> PrimFloat.leb a b = true.
Proof.
  intros Ha Hb. apply leb_SFle.
  rewrite (classify_zero a true Ha), (classify_zero b false Hb).
  right; reflexivity.
Qed.

Lemma leb_infinity_l x : PrimFloat.leb infinity x = true -> x = infinity.
Proof.
  intros H. apply leb_SFle in H.
  change (Prim2SF infinity) with (S754_infinity false) in H.
  rewrite <- (SF2Prim_Prim2SF x).
  destruct (Prim2SF x) as [s|[]| |s m e]; destruct H as [H|H];
    try discriminate; try reflexivity.
Qed.

Lemma leb_neg_infinity_r x : PrimFloat.leb x neg_infinity = true -> x = neg_infinity.
Proof.
  intros H. apply leb_SFle in H.
  change (Prim2SF neg_infinity) with (S754_infinity true) in H.
  rewrite <- (SF2Prim_Prim2SF x).
  destruct (Prim2SF x) as [s|[]| |[] m e]; destruct H as [H|H];
    try discriminate; try reflexivity.
Qed.

Lemma min_step_spec lowest number :
  PrimFloat.is_nan lowest = false -> PrimFloat.is_nan number = false ->
  PrimFloat.is_nan (Num.min_step lowest number) = false
  /\ PrimFloat.leb (Num.min_step lowest number) lowest = true
  /\ PrimFloat.leb (Num.min_step lowest number) number = true
  /\ (Num.min_step lowest number = lowest \/ Num.min_step lowest number = number).
Proof.
  intros Hl Hn. unfold Num.min_step, Num.is_neg_zero, Num.is_pos_zero.
  destruct (classify number) eqn:Cn; destruct (classify lowest) eqn:Cl; simpl;
    try (destruct (PrimFloat.ltb number lowest) eqn:E;
         [ repeat split; auto using ltb_leb, leb_refl
         | repeat split; auto using not_ltb_leb, leb_refl ]).
  repeat split; auto using zeros_leb, leb_refl.
Qed.

Lemma max_step_spec highest number :
  PrimFloat.is_nan highest = false -> PrimFloat.is_nan number = false ->
  PrimFloat.is_nan (Num.max_step highest number) = false
  /\ PrimFloat.leb highest (Num.max_step highest number) = true
  /\ PrimFloat.leb number (Num.max_step highest number) = true
  /\ (Num.max_step highest number = highest \/ Num.max_step highest number = number).
Proof.
  intros Hl Hn. unfold Num.max_step, Num.is_neg_zero, Num.is_pos_zero.
  destruct (classify number) eqn:Cn; destruct (classify highest) eqn:Cl; simpl;
    try (destruct (PrimFloat.ltb highest number) eqn:E;
         [ repeat split; auto using ltb_leb, leb_refl
         | repeat split; auto using not_ltb_leb, leb_refl ]).
  repeat split; auto using zeros_leb, leb_refl.
Qed.

Lemma fold_min_spec xs : forall acc,
  existsb PrimFloat.is_nan xs = false -> PrimFloat.is_nan acc = false ->
  PrimFloat.is_nan (fold_left Num.min_step xs acc) = false
  /\ PrimFloat.leb (fold_left Num.min_step xs acc) acc = true
  /\ (forall x, In x xs -> PrimFloat.leb (fold_left Num.min_step xs acc) x = true)
  /\ (fold_left Num.min_step xs acc = acc \/ In (fold_left Num.min_step xs acc) xs).
Proof.
  induction xs as [|x xs IH]; intros acc Hxs Hacc; simpl in *.
  - repeat split; auto using leb_refl; intros x [].

  - apply orb_false_iff in Hxs. destruct Hxs as [Hx Hxs].
    destruct (min_step_spec acc x Hacc Hx) as (Hn & Hla & Hlx & Hor).
    destruct (IH (Num.min_step acc x) Hxs Hn) as (Hn' & Hl' & Hall & Hat).
    repeat split; auto.
    + eapply leb_trans; eauto.
    + intros y [<-|Hy]; [eapply leb_trans; eauto | auto].
    + destruct Hat as [E|Hin]; [|auto].
      rewrite E. destruct Hor as [->| ->]; auto.
Qed.

Lemma fold_max_spec xs : forall acc,
  existsb PrimFloat.is_nan xs = false -> PrimFloat.is_nan acc = false ->
  PrimFloat.is_nan (fold_left Num.max_step xs acc) = false
  /\ PrimFloat.leb acc (fold_left Num.max_step xs acc) = true
  /\ (forall x, In x xs -> PrimFloat.leb x (fold_left Num.max_step xs acc) = true)
  /\ (fold_left Num.max_step xs acc = acc \/ In (fold_left Num.max_step xs acc) xs).
Proof.
  induction xs as [|x xs IH]; intros acc Hxs Hacc; simpl in *.
  - repeat split; auto using leb_refl; intros x [].

  - apply orb_false_iff in Hxs. destruct Hxs as [Hx Hxs].
    destruct (max_step_spec acc x Hacc Hx) as (Hn & Hla & Hlx & Hor).
    destruct (IH (Num.max_step acc x) Hxs Hn) as (Hn' & Hl' & Hall & Hat).
    repeat split; auto.
    + eapply leb_trans; eauto.
    + intros y [<-|Hy]; [eapply leb_trans; eauto | auto].
    + destruct Hat as [E|Hin]; [|auto].
      rewrite E. destruct Hor as [->| ->]; auto.
Qed.

Lemma Math_min_spec xs :
  existsb PrimFloat.is_nan xs = false ->
  PrimFloat.is_nan (Num.Math_min xs) = false
  /\ (forall x, In x xs -> PrimFloat.leb (Num.Math_min xs) x = true)
  /\ (xs <> [] -> In (Num.Math_min xs) xs).
Proof.
  intros H. unfold Num.Math_min. rewrite H.
  destruct (fold_min_spec xs infinity H eq_refl) as (Hn & _ & Hall & Hat).
  repeat split; auto.
  intros Hne. destruct Hat as [E|Hin]; [|exact Hin].
  destruct xs as [|x xs]; [congruence|].
  rewrite E. left. apply leb_infinity_l.
  rewrite <- E. apply Hall. now left.
Qed.

Lemma Math_max_spec xs :
  existsb PrimFloat.is_nan xs = false ->
  PrimFloat.is_nan (Num.Math_max xs) = false
  /\ (forall x, In x xs -> PrimFloat.leb x (Num.Math_max xs) = true)
  /\ (xs <> [] -> In (Num.Math_max xs) xs).
Proof.
  intros H. unfold Num.Math_max. rewrite H.
  destruct (fold_max_spec xs neg_infinity H eq_refl) as (Hn & _ & Hall & Hat).
  repeat split; auto.
  intros Hne. destruct Hat as [E|Hin]; [|exact Hin].
  destruct xs as [|x xs]; [congruence|].
  rewrite E. left. apply leb_neg_infinity_r.
  rewrite <- E. apply Hall. now left.
Qed.

(** ** The bounding box *)

Lemma noNaN_coordinates kps :
  noNaN kps = true ->
  existsb PrimFloat.is_nan (map Keypoint.x kps) = false
  /\ existsb PrimFloat.is_nan (map Keypoint.y kps) = false.
Proof.
  unfold noNaN. induction kps as [|k kps IH]; simpl; [auto|].
  intros H. apply andb_true_iff in H. destruct H as [Hk Hr].
  apply andb_true_iff in Hk. destruct Hk as [Hx Hy].
  apply negb_true_iff in Hx, Hy. destruct (IH Hr) as [IHx IHy].
  now rewrite Hx, Hy, IHx, IHy.
Qed.

Lemma someNaN_coordinates kps :
  noNaN kps = false ->
  existsb PrimFloat.is_nan (map Keypoint.x kps) = true
  \/ existsb PrimFloat.is_nan (map Keypoint.y kps) = true.
Proof.
  unfold noNaN. induction kps as [|k kps IH]; simpl; [discriminate|].
  intros H.
  destruct (PrimFloat.is_nan (Keypoint.x k)); [now left|].
  destruct (PrimFloat.is_nan (Keypoint.y k)); [now right|].
  simpl in H. exact (IH H).
Qed.

(** X1.  When no landmark coordinate is NaN, the bounding box contains every
    landmark: its x lies between [minX] and [maxX] and its y between [minY]
    and [maxY]. *)
Theorem boundingBox_contains kps k :
  noNaN kps = true ->
  In k kps ->
  PrimFloat.leb (minX (getBoundingBox kps)) (Keypoint.x k) = true
  /\ PrimFloat.leb (Keypoint.x k) (maxX (getBoundingBox kps)) = true
  /\ PrimFloat.leb (minY (getBoundingBox kps)) (Keypoint.y k) = true
  /\ PrimFloat.leb (Keypoint.y k) (maxY (getBoundingBox kps)) = true.
Proof.
  intros H Hin. destruct (noNaN_coordinates kps H) as [Hx Hy].
  destruct (Math_min_spec _ Hx) as (_ & Lx & _).
  destruct (Math_max_spec _ Hx) as (_ & Ux & _).
  destruct (Math_min_spec _ Hy) as (_ & Ly & _).
  destruct (Math_max_spec _ Hy) as (_ & Uy & _).
  unfold getBoundingBox; simpl.
  repeat split; auto using in_map.
Qed.


(** ** NaN *)

Lemma leb_nan_l a b : PrimFloat.is_nan a = true -> PrimFloat.leb a b = false.
Proof.
  intros H. apply is_nan_spec in H. rewrite leb_spec, H. reflexivity.
Qed.

Lemma sub_nan_l a b : PrimFloat.is_nan a = true -> PrimFloat.is_nan (a - b) = true.
Proof.
  rewrite !is_nan_spec, sub_spec. intros ->. reflexivity.
Qed.

Lemma add_nan_l a b : PrimFloat.is_nan a = true -> PrimFloat.is_nan (a + b) = true.
Proof.
  rewrite !is_nan_spec, add_spec. intros ->. reflexivity.
Qed.

Lemma add_nan_r a b : PrimFloat.is_nan b = true -> PrimFloat.is_nan (a + b) = true.
Proof.
  rewrite !is_nan_spec, add_spec. intros ->. now destruct (Prim2SF a).
Qed.

Lemma mul_nan_r a b : PrimFloat.is_nan b = true -> PrimFloat.is_nan (a * b) = true.
Proof.
  rewrite !is_nan_spec, mul_spec. intros ->. now destruct (Prim2SF a).
Qed.

Lemma Math_min_nan xs :
  existsb PrimFloat.is_nan xs = true -> PrimFloat.is_nan (Num.Math_min xs) = true.
Proof. unfold Num.Math_min. now intros ->. Qed.


Section NaNLandmarks.

Context {ops : NumberOps}.

(** What ECMAScript asks of [b ** 2] when [b] is NaN. *)
Hypothesis pow2_nan : forall b, PrimFloat.is_nan b = true -> PrimFloat.is_nan (pow2 b) = true.

Lemma isInsideEllipse_nan x y cx cy rx ry :
  PrimFloat.is_nan x = true \/ PrimFloat.is_nan y = true ->
  isInsideEllipse x y cx cy rx ry = false.
Proof.
  intros H. unfold isInsideEllipse, Num.le. apply leb_nan_l.
  destruct H as [H|H].
  - apply add_nan_l, div_nan_l, pow2_nan, sub_nan_l, H.
  - apply add_nan_r, div_nan_l, pow2_nan, sub_nan_l, H.
Qed.

Lemma noNaN_false kps :
  noNaN kps = false ->
  exists k, In k kps
    /\ (PrimFloat.is_nan (Keypoint.x k) = true \/ PrimFloat.is_nan (Keypoint.y k) = true).
Proof.
  unfold noNaN. induction kps as [|k kps IH]; simpl; [discriminate|].
  intros H.
  destruct (PrimFloat.is_nan (Keypoint.x k)) eqn:Ex; [exists k; auto|].
  destruct (PrimFloat.is_nan (Keypoint.y k)) eqn:Ey; [exists k; auto|].
  simpl in H. destruct (IH H) as (q & Hq & Hn). exists q; auto.
Qed.

Lemma length_filter_le {A} (f : A -> bool) l :
  (length (filter f l) <= length l)%nat.
Proof. induction l as [|a l IH]; simpl; [lia|]. destruct (f a); simpl; lia. Qed.

Lemma length_filter_lt {A} (f : A -> bool) l x :
  In x l -> f x = false -> (length (filter f l) < length l)%nat.
Proof.
  induction l as [|a l IH]; simpl; [tauto|].
  intros [->|Hin] Hf.
  - rewrite Hf. pose proof (length_filter_le f l). lia.
  - specialize (IH Hin Hf). destruct (f a); simpl; lia.
Qed.

(** X3.  With a NaN among the landmark coordinates the bounding box is
    never inside the ellipse, a landmark with a NaN coordinate never passes
    the ellipse test, and so fewer landmarks are counted inside than there
    are; this for every [**] that maps NaN to NaN, as ECMAScript asks. *)
Theorem nan_landmark_fails kps cx cy rx ry :
  noNaN kps = false ->
  isBoundingBoxInsideEllipse kps cx cy rx ry = false
  /\ (forall k, In k kps ->
        PrimFloat.is_nan (Keypoint.x k) = true \/ PrimFloat.is_nan (Keypoint.y k) = true ->
        isInsideEllipse (Keypoint.x k) (Keypoint.y k) cx cy rx ry = false)
  /\ (countInside kps cx cy rx ry < length kps)%nat.
Proof.
  intros H. split; [|split].
  - unfold isBoundingBoxInsideEllipse, getBoundingBox, corners; simpl.
    destruct (someNaN_coordinates kps H) as [Hx|Hy].
    + rewrite isInsideEllipse_nan; [reflexivity|]. left. now apply Math_min_nan.
    + rewrite isInsideEllipse_nan; [reflexivity|]. right. now apply Math_min_nan.
  - intros k _ Hk. now apply isInsideEllipse_nan.
  - destruct (noNaN_false kps H) as (k & Hin & Hk).
    rewrite countInside_filter.
    apply length_filter_lt with (x := k); [exact Hin|].
    now apply isInsideEllipse_nan.
Qed.

End NaNLandmarks.

Lemma Binary64Ops_pow2_nan b :
  PrimFloat.is_nan b = true -> PrimFloat.is_nan (pow2 (NumberOps := Binary64Ops) b) = true.
Proof. intros H. simpl. now apply mul_nan_l. Qed.

(** ** The coverage fraction *)

Section Coverage.

Context {ops : NumberOps}.

(** X4.  Of no landmark at all the coverage fraction is 0/0, NaN, and the
    comparison with the required fraction fails whatever that is. *)
Theorem fraction_of_nothing cx cy rx ry t :
  PrimFloat.is_nan (fractionInsideEllipse [] cx cy rx ry) = true
  /\ Num.ge (fractionInsideEllipse [] cx cy rx ry) t = false.
Proof.
  assert (N : PrimFloat.is_nan (fractionInsideEllipse [] cx cy rx ry) = true)
    by (vm_compute; reflexivity).
  split; [exact N|]. unfold Num.ge. now apply leb_nan_r.
Qed.

(** X5.  The number of landmarks counted inside is at most their number;
    it is their number exactly when every landmark passes the ellipse test,
    and zero exactly when none does. *)
Theorem countInside_bounds kps cx cy rx ry :
  (countInside kps cx cy rx ry <= length kps)%nat
  /\ (countInside kps cx cy rx ry = length kps <->
      forall k, In k kps ->
        isInsideEllipse (Keypoint.x k) (Keypoint.y k) cx cy rx ry = true)
  /\ (countInside kps cx cy rx ry = 0%nat <->
      forall k, In k kps ->
        isInsideEllipse (Keypoint.x k) (Keypoint.y k) cx cy rx ry = false).
Proof.
  rewrite countInside_filter.
  set (f := fun k => isInsideEllipse (Keypoint.x k) (Keypoint.y k) cx cy rx ry).
  split; [apply length_filter_le|]. split.
  - split.
    + intros E k Hin. destruct (f k) eqn:Hf; [exact Hf|].
      pose proof (length_filter_lt f kps k Hin Hf). lia.
    + intros Hall. induction kps as [|k kps IH]; simpl; [reflexivity|].
      assert (Hk : f k = true) by (apply Hall; now left).
      rewrite Hk. simpl. f_equal.
      apply IH. intros q Hq. apply Hall. now right.
  - split.
    + intros E k Hin. destruct (f k) eqn:Hf; [|exact Hf].
      assert (In k (filter f kps)) by (apply filter_In; auto).
      destruct (filter f kps); [contradiction | discriminate].
    + intros Hall. induction kps as [|k kps IH]; simpl; [reflexivity|].
      assert (Hk : f k = false) by (apply Hall; now left).
      rewrite Hk.
      apply IH. intros q Hq. apply Hall. now right.
Qed.

End Coverage.

(** ** The divisor of the relative eye distance *)


(** ** How a run of [detect] ends *)

Section Outcomes.

Context {ops : NumberOps}.
Variable p : Props.



End Outcomes.

(** ** More invariants of a session *)

Section Session.

Context {ops : NumberOps}.
Variable p : Props.

(** How the last reported signals and the counters hang together. *)
Record Coherent (r : Refs) : Prop := {
  co_good : lastGoodVisualRef r = true <-> (0 < goodStreakRef r)%Z;
  co_good_ok :
    lastGoodVisualRef r = true ->
    lastDistanceStatusRef r = Some ok /\ badStreakRef r = 0%Z;
  co_capture_ok :
    lastCaptureAllowedRef r = true -> lastDistanceStatusRef r = Some ok;
  co_dead_zone :
    lastCaptureAllowedRef r = true -> lastGoodVisualRef r = false ->
    (1 <= badStreakRef r)%Z;
  co_calibrating :
    (0 < calibratingStreakRef r)%Z -> (lostStreakRef r < LOST_RESET_STREAK)%Z;
  co_calibrated :
    (CALIBRATE_MIN_STREAK <= calibratingStreakRef r)%Z -> baselineEyePxRef r <> None
}.

Lemma Coherent_init : Coherent initialRefs.
Proof.
  constructor; simpl; unfold CALIBRATE_MIN_STREAK, LOST_RESET_STREAK;
    try discriminate; try lia;
    try (split; [discriminate | lia]).
Qed.

Lemma Coherent_step r fr res :
  Inv p r -> Coherent r -> detect p r fr = Processed res -> Coherent (refs res).
Proof.
  intros [Hg Hb Hc Hl _ _ _ _] [C1 C2 C3 C4 C5 C6] H.
  unfold CALIBRATE_MIN_STREAK, LOST_RESET_STREAK in *.
  destruct (detect_Processed _ _ _ _ H) as [face rest le re f _ _ _ _ _ S | _ _ S].
  - destruct S as [Ec El Eb _ Egood Egs Ebs Ea Eld Elc Elg _].
    unfold goodAfter in Egood. unfold allowedAfter in Ea.
    unfold CALIBRATE_MIN_STREAK in *.
    constructor; rewrite ?Ec, ?El, ?Eb, ?Egs, ?Ebs, ?Eld, ?Elc, ?Elg, ?Ea;
      unfold CALIBRATE_MIN_STREAK, LOST_RESET_STREAK;
      destruct (isGoodNow res), (geometryOk f), (distanceStatus f),
        (baselineEyePxRef r);
      simpl in *; try discriminate; intros; leb_cases;
      try lia; try congruence; try tauto;
      try (split; [reflexivity | lia]);
      try (split; [discriminate | lia]);
      try (split; reflexivity).
  - destruct S as [El Eb Ec _ _ Egs Ebs Eld Elc Elg _].
    unfold LOST_RESET_STREAK in *.
    constructor; rewrite ?Ec, ?El, ?Eb, ?Egs, ?Ebs, ?Eld, ?Elc, ?Elg;
      unfold CALIBRATE_MIN_STREAK, LOST_RESET_STREAK;
      intros; leb_cases; try lia; try congruence; try tauto;
      try (split; [discriminate | lia]).
    all: try (specialize (C5 ltac:(lia)); lia).
Qed.

Lemma Reachable_Coherent r : Reachable p r -> Coherent r.
Proof.
  induction 1 as [|r fr res Hr IH H]; [apply Coherent_init|].
  eapply Coherent_step; eauto. now apply Reachable_Inv.
Qed.

(** X7.  In a session, face-good was last reported [true] exactly when
    [goodStreak] is positive, and then the last reported distance status is
    [ok] and [badStreak] is zero; and capture-allowed was last reported
    [true] only with [ok] as the last reported distance status. *)
Theorem signals_coherent r :
  Reachable p r ->
  (lastGoodVisualRef r = true <-> (0 < goodStreakRef r)%Z)
  /\ (lastGoodVisualRef r = true ->
      lastDistanceStatusRef r = Some ok /\ badStreakRef r = 0%Z)
  /\ (lastCaptureAllowedRef r = true -> lastDistanceStatusRef r = Some ok).
Proof.
  intros Hr. destruct (Reachable_Coherent r Hr) as [C1 C2 C3 _ _ _]. auto.
Qed.

(** X8.  In a session with both thresholds at least one, capture-allowed
    [true] means [badStreak] is below [minFramesOut], and [false] means
    [goodStreak] is below [minFramesIn]; the two signals disagree only
    inside the debounce window: allowed without a good face with
    [1 <= badStreak < minFramesOut], a good face without allowance with
    [1 <= goodStreak < minFramesIn]. *)
Theorem signals_disagree_in_dead_zone r :
  Reachable p r ->
  (1 <= minFramesIn p)%Z ->
  (1 <= minFramesOut p)%Z ->
  (lastCaptureAllowedRef r = true -> (badStreakRef r < minFramesOut p)%Z)
  /\ (lastCaptureAllowedRef r = false -> (goodStreakRef r < minFramesIn p)%Z)
  /\ (lastCaptureAllowedRef r = true -> lastGoodVisualRef r = false ->
      (1 <= badStreakRef r < minFramesOut p)%Z /\ goodStreakRef r = 0%Z)
  /\ (lastCaptureAllowedRef r = false -> lastGoodVisualRef r = true ->
      (1 <= goodStreakRef r < minFramesIn p)%Z /\ badStreakRef r = 0%Z).
Proof.
  intros Hr Hi Ho.
  destruct (Reachable_Coherent r Hr) as [C1 C2 _ C4 _ _].
  destruct (Reachable_Inv p r Hr) as [Hg Hb _ _ Hx _ Hin Hout].
  assert (A : lastCaptureAllowedRef r = true -> (badStreakRef r < minFramesOut p)%Z).
  { intros Ht. destruct (Z.lt_ge_cases (badStreakRef r) (minFramesOut p)) as [|Hge];
      [assumption|]. specialize (Hout Hi Ho Hge). congruence. }
  assert (B : lastCaptureAllowedRef r = false -> (goodStreakRef r < minFramesIn p)%Z).
  { intros Hf. destruct (Z.lt_ge_cases (goodStreakRef r) (minFramesIn p)) as [|Hge];
      [assumption|]. specialize (Hin Hi Hge). congruence. }
  split; [exact A|]. split; [exact B|]. split.
  - intros Ht Hf. specialize (A Ht). specialize (C4 Ht Hf).
    split; [lia|]. destruct Hx as [E|E]; [exact E | lia].
  - intros Hf Ht. specialize (B Hf). apply C1 in Ht as Hpos.
    destruct (C2 Ht) as [_ E]. split; [lia | exact E].
Qed.

(** X13.  Frames without a face do not interrupt the calibration while
    [lostStreak] stays below 12: over frames that either show a face with OK
    geometry or no face, [calibratingStreak] grows by the number of frames
    with a face; and in a session the baseline is set whenever
    [calibratingStreak] is at least 8. *)
Theorem calibrating_across_gaps r frs ress r' :
  Reachable p r ->
  Processes p r frs ress r' ->
  Forall (fun res =>
            match seen res with
            | Some f => geometryOk f = true
            | None => (lostStreakRef (refs res) < LOST_RESET_STREAK)%Z
            end) ress ->
  calibratingStreakRef r' = (calibratingStreakRef r + Z.of_nat (countFaces ress))%Z
  /\ ((CALIBRATE_MIN_STREAK <= calibratingStreakRef r')%Z -> baselineEyePxRef r' <> None).
Proof.
  intros Hr HP Hall.
  split.
  - clear Hr. induction HP as [r|r fr res frs ress r' E HP IH].
    + unfold countFaces; simpl. lia.
    + inversion Hall as [|x l Hx Hrest]; subst x l.
      rewrite (IH Hrest). unfold countFaces; simpl.
      destruct (detect_Processed _ _ _ _ E) as [face rest le re f _ _ _ Hs _ S | _ Hs S];
        rewrite Hs in *; simpl.
      * destruct S as [Ec _ _ _ _ _ _ _ _ _ _ _]. rewrite Ec, Hx. lia.
      * destruct S as [El _ Ec _ _ _ _ _ _ _ _].
        unfold LOST_RESET_STREAK in *. rewrite Ec.
        rewrite El in Hx. leb_cases; lia.
  - apply (co_calibrated r'). apply Reachable_Coherent.
    eapply Reachable_Processes; eauto.
Qed.

(** X14.  A face with bad geometry does not reset [lostStreak]: over frames
    none of which has OK geometry, [lostStreak] grows by the number of
    frames without a face, consecutive or not; and once it is 12 or more
    the baseline is unset and [calibratingStreak] is zero. *)
Theorem lost_across_bad_faces r frs ress r' :
  Reachable p r ->
  Processes p r frs ress r' ->
  Forall (fun res =>
            match seen res with
            | Some f => geometryOk f = false
            | None => True
            end) ress ->
  lostStreakRef r' = (lostStreakRef r + Z.of_nat (countNoFaces ress))%Z
  /\ ((LOST_RESET_STREAK <= lostStreakRef r')%Z ->
      baselineEyePxRef r' = None /\ calibratingStreakRef r' = 0%Z).
Proof.
  intros Hr HP Hall.
  split.
  - clear Hr. induction HP as [r|r fr res frs ress r' E HP IH].
    + unfold countNoFaces; simpl. lia.
    + inversion Hall as [|x l Hx Hrest]; subst x l.
      rewrite (IH Hrest). unfold countNoFaces; simpl.
      destruct (detect_Processed _ _ _ _ E) as [face rest le re f _ _ _ Hs _ S | _ Hs S];
        rewrite Hs in *; simpl.
      * destruct S as [_ El _ _ _ _ _ _ _ _ _ _]. rewrite El, Hx. lia.
      * destruct S as [El _ _ _ _ _ _ _ _ _ _]. rewrite El. lia.
  - intros Hge.
    assert (Hr' : Reachable p r') by (eapply Reachable_Processes; eauto).
    destruct (Reachable_Coherent r' Hr') as [_ _ _ _ C5 _].
    destruct (Reachable_Inv p r' Hr') as [_ _ Hc _ _ Hbase _ _].
    split.
    + destruct (baselineEyePxRef r') eqn:Eb; [|reflexivity].
      assert (lostStreakRef r' < LOST_RESET_STREAK)%Z by (apply Hbase; congruence).
      lia.
    + destruct (Z.eq_dec (calibratingStreakRef r') 0) as [|Hne]; [assumption|].
      assert (lostStreakRef r' < LOST_RESET_STREAK)%Z by (apply C5; lia).
      lia.
Qed.

End Session.

(** ** How long the debounce takes *)

Section Debounce.

Context {ops : NumberOps}.
Variable p : Props.

Lemma good_frame r fr res :
  detect p r fr = Processed res ->
  isGoodNow res = true ->
  goodStreakRef (refs res) = (goodStreakRef r + 1)%Z
  /\ lastCaptureAllowedRef (refs res) =
       (if (minFramesIn p <=? goodStreakRef r + 1)%Z then true
        else if (minFramesOut p <=? 0)%Z then false
        else lastCaptureAllowedRef r).
Proof.
  intros H G.
  destruct (detect_Processed _ _ _ _ H) as [face rest le re f _ _ _ _ _ S | _ _ S].
  - destruct S as [_ _ _ _ Egood Egs _ Ea _ Elc _ _].
    unfold goodAfter in Egood. unfold allowedAfter in Ea.
    rewrite G in *. rewrite Elc, Ea, Egs.
    destruct (DistanceStatus_eqb (distanceStatus f) ok); [|discriminate].
    split; reflexivity.
  - destruct S. congruence.
Qed.

Lemma bad_frame r fr res :
  detect p r fr = Processed res ->
  isGoodNow res = false ->
  goodStreakRef (refs res) = 0%Z
  /\ badStreakRef (refs res) = (badStreakRef r + 1)%Z
  /\ (lastCaptureAllowedRef (refs res) = false
      \/ statusOf res = ok
         /\ seen res <> None
         /\ lastCaptureAllowedRef (refs res) =
              (if (minFramesIn p <=? 0)%Z then true
               else if (minFramesOut p <=? badStreakRef r + 1)%Z then false
               else lastCaptureAllowedRef r)).
Proof.
  intros H G. unfold statusOf.
  destruct (detect_Processed _ _ _ _ H) as [face rest le re f _ _ _ Hs _ S | _ Hs S];
    rewrite Hs.
  - destruct S as [_ _ _ _ _ Egs Ebs Ea _ Elc _ _].
    unfold allowedAfter in Ea. rewrite G in *. rewrite Elc, Ea, Egs, Ebs.
    split; [reflexivity|]. split; [reflexivity|].
    destruct (distanceStatus f); simpl; auto.
    right. split; [reflexivity|]. split; [discriminate | reflexivity].
  - destruct S. repeat split; auto.
Qed.

(** X9.  Face-good frames in a row that take [goodStreak] to [minFramesIn]
    or beyond leave capture-allowed [true], whatever it was before. *)
Theorem enough_good_frames_allow r frs ress r' :
  Processes p r frs ress r' ->
  frs <> [] ->
  Forall (fun res => isGoodNow res = true) ress ->
  (minFramesIn p <= goodStreakRef r + Z.of_nat (length frs))%Z ->
  goodStreakRef r' = (goodStreakRef r + Z.of_nat (length frs))%Z
  /\ lastCaptureAllowedRef r' = true.
Proof.
  induction 1 as [r|r fr res frs ress r' E HP IH]; intros Hne Hall Hge;
    [congruence|].
  inversion Hall as [|x l Hx Hrest]; subst x l.
  destruct (good_frame _ _ _ E Hx) as [Eg Ec].
  change (length (fr :: frs)) with (S (length frs)) in *.
  destruct frs as [|fr2 frs].
  - inversion HP; subst. simpl in *. rewrite Eg, Ec.
    split; [lia|]. leb_cases; try reflexivity; lia.
  - destruct IH as [IHg IHc]; [discriminate | exact Hrest | rewrite Eg; lia |].
    rewrite IHg, Eg. split; [lia | exact IHc].
Qed.

(** X10.  With [minFramesIn] at least one, frames in a row that are not
    face-good and take [badStreak] to [minFramesOut] or beyond leave
    capture-allowed [false]. *)
Theorem enough_bad_frames_forbid r frs ress r' :
  (1 <= minFramesIn p)%Z ->
  Processes p r frs ress r' ->
  frs <> [] ->
  Forall (fun res => isGoodNow res = false) ress ->
  (minFramesOut p <= badStreakRef r + Z.of_nat (length frs))%Z ->
  badStreakRef r' = (badStreakRef r + Z.of_nat (length frs))%Z
  /\ lastCaptureAllowedRef r' = false.
Proof.
  intros Hi. induction 1 as [r|r fr res frs ress r' E HP IH]; intros Hne Hall Hge;
    [congruence|].
  inversion Hall as [|x l Hx Hrest]; subst x l.
  destruct (bad_frame _ _ _ E Hx) as (_ & Eb & Ec).
  change (length (fr :: frs)) with (S (length frs)) in *.
  destruct frs as [|fr2 frs].
  - inversion HP; subst. simpl in *. rewrite Eb.
    split; [lia|]. destruct Ec as [Ec|(_ & _ & Ec)]; [exact Ec|].
    rewrite Ec. leb_cases; try lia; reflexivity.
  - destruct IH as [IHb IHc]; [discriminate | exact Hrest | rewrite Eb; lia |].
    rewrite IHb, Eb. split; [lia | exact IHc].
Qed.

Lemma streak_steps r fr res :
  detect p r fr = Processed res ->
  (0 <= goodStreakRef r)%Z -> (0 <= badStreakRef r)%Z ->
  (0 <= goodStreakRef (refs res) <= goodStreakRef r + 1)%Z
  /\ (0 <= badStreakRef (refs res) <= badStreakRef r + 1)%Z.
Proof.
  intros H Hg Hb.
  destruct (isGoodNow res) eqn:G.
  - destruct (good_frame _ _ _ H G) as [Eg _].
    destruct (detect_Processed _ _ _ _ H) as [face rest le re f _ _ _ _ _ S | _ _ S];
      destruct S; [|congruence].
    rewrite G in *. lia.
  - destruct (bad_frame _ _ _ H G) as (Eg & Eb & _). lia.
Qed.

(** X11.  Capture-allowed cannot be raised early: from [false], it stays
    [false] over any frames as long as [goodStreak] plus their number is
    below [minFramesIn]. *)
Theorem no_early_allow r frs ress r' :
  Processes p r frs ress r' ->
  lastCaptureAllowedRef r = false ->
  (0 <= goodStreakRef r)%Z ->
  (0 <= badStreakRef r)%Z ->
  (goodStreakRef r + Z.of_nat (length frs) < minFramesIn p)%Z ->
  lastCaptureAllowedRef r' = false
  /\ Forall (fun res => captureAllowed res = false) ress.
Proof.
  induction 1 as [r|r fr res frs ress r' E HP IH]; intros Hl Hg Hb Hlt.
  - split; [exact Hl | constructor].
  - change (length (fr :: frs)) with (S (length frs)) in Hlt.
    destruct (streak_steps _ _ _ E Hg Hb) as [Sg Sb].
    destruct (frame_last p _ _ _ E) as (_ & Elc & _).
    assert (Ec : lastCaptureAllowedRef (refs res) = false).
    { destruct (isGoodNow res) eqn:G.
      - destruct (good_frame _ _ _ E G) as [_ Ec]. rewrite Ec, Hl.
        leb_cases; try lia; reflexivity.
      - destruct (bad_frame _ _ _ E G) as (_ & _ & [Ec|(_ & _ & Ec)]); [exact Ec|].
        rewrite Ec, Hl. leb_cases; try lia; reflexivity. }
    destruct IH as [IHl IHF]; [exact Ec | lia | lia | lia |].
    split; [exact IHl|]. constructor; [congruence | exact IHF].
Qed.

(** X12.  Capture-allowed is not dropped early by bad geometry alone: from
    [true], it stays [true] over frames with a face at [ok] distance as long
    as [badStreak] plus their number is below [minFramesOut]. *)
Theorem no_early_forbid r frs ress r' :
  Processes p r frs ress r' ->
  lastCaptureAllowedRef r = true ->
  (0 <= goodStreakRef r)%Z ->
  (0 <= badStreakRef r)%Z ->
  (badStreakRef r + Z.of_nat (length frs) < minFramesOut p)%Z ->
  Forall (fun res => seen res <> None /\ statusOf res = ok) ress ->
  lastCaptureAllowedRef r' = true
  /\ Forall (fun res => captureAllowed res = true) ress.
Proof.
  induction 1 as [r|r fr res frs ress r' E HP IH]; intros Hl Hg Hb Hlt Hall.
  - split; [exact Hl | constructor].
  - change (length (fr :: frs)) with (S (length frs)) in Hlt.
    inversion Hall as [|x l [Hseen Hok] Hrest]; subst x l.
    destruct (streak_steps _ _ _ E Hg Hb) as [Sg Sb].
    destruct (frame_last p _ _ _ E) as (_ & Elc & _).
    assert (Ec : lastCaptureAllowedRef (refs res) = true).
    { destruct (detect_Processed _ _ _ _ E) as [face rest le re f _ _ _ Hs _ S | _ Hs S];
        [|congruence].
      destruct S as [_ _ _ _ _ _ _ Ea _ Elc' _ _].
      unfold statusOf in Hok. rewrite Hs in Hok.
      unfold allowedAfter in Ea. rewrite Hok in Ea. simpl in Ea.
      rewrite Elc', Ea, Hl.
      destruct (isGoodNow res); leb_cases; try lia; reflexivity. }
    destruct IH as [IHl IHF]; [exact Ec | lia | lia | lia | exact Hrest |].
    split; [exact IHl|]. constructor; [congruence | exact IHF].
Qed.

End Debounce.

(** ** NaN distances and the divisor *)

Section Distances.

Context {ops : NumberOps}.
Variable p : Props.

(** X15.  A NaN eye distance gives a NaN relative distance and the status
    [ok]; so does a NaN baseline, for every eye distance; and a NaN eye
    distance on the frame that completes the calibration leaves a NaN
    baseline. *)
Theorem nan_distance_is_ok r fr res f :
  detect p r fr = Processed res ->
  seen res = Some f ->
  (PrimFloat.is_nan (eyeDistance f) = true ->
   PrimFloat.is_nan (relativeEyeDistance f) = true /\ distanceStatus f = ok)
  /\ (forall b, baselineEyePxRef (refs res) = Some b ->
        PrimFloat.is_nan b = true -> distanceStatus f = ok)
  /\ (PrimFloat.is_nan (eyeDistance f) = true ->
      baselineEyePxRef r = None ->
      geometryOk f = true ->
      (CALIBRATE_MIN_STREAK <= calibratingStreakRef r + 1)%Z ->
      exists b, baselineEyePxRef (refs res) = Some b /\ PrimFloat.is_nan b = true).
Proof.
  intros H Hs.
  destruct (detect_Processed _ _ _ _ H) as [face rest le re f' _ _ _ Hs' G S | _ Hs' _];
    [|congruence].
  assert (f' = f) by congruence. subst f'.
  destruct G as [_ Erel _ _ _].
  destruct S as [_ _ Eb Est _ _ _ _ _ _ _ _].
  unfold classifyDistance, Num.lt, Num.gt in Est.
  split; [|split].
  - intros He.
    assert (Hrel : PrimFloat.is_nan (relativeEyeDistance f) = true)
      by (rewrite Erel; now apply div_nan_l).
    split; [exact Hrel|]. rewrite Est.
    destruct (baselineEyePxRef (refs res)) as [b|].
    + now rewrite (ltb_nan_l _ _ He), (ltb_nan_r _ _ He).
    + now rewrite (ltb_nan_l _ _ Hrel), (ltb_nan_r _ _ Hrel).
  - intros b Hb Hn. rewrite Est, Hb.
    rewrite (ltb_nan_r (eyeDistance f) _ (mul_nan_l b FAR_FACTOR Hn)).
    now rewrite (ltb_nan_l _ (eyeDistance f) (mul_nan_l b CLOSE_FACTOR Hn)).
  - intros He Hnone Hg Hc. exists (eyeDistance f). split; [|exact He].
    rewrite Eb, Hnone, Hg. simpl.
    destruct (Z.leb_spec CALIBRATE_MIN_STREAK (calibratingStreakRef r + 1));
      [reflexivity | lia].
Qed.


End Distances.

(** ** The further theorems at the sample frames *)

Lemma Forall_of_forallb {A} (P : A -> Prop) (f : A -> bool) l :
  (forall x, f x = true -> P x) -> forallb f l = true -> Forall P l.
Proof.
  intros Hf H. apply Forall_forall. intros x Hin.
  apply Hf. rewrite forallb_forall in H. now apply H.
Qed.

Lemma boundingBox_contains_witness :
  noNaN strayLandmarks = true
  /\ In (Keypoint.mk 0 0) strayLandmarks
  /\ PrimFloat.leb (minX (getBoundingBox strayLandmarks)) 0 = true
  /\ PrimFloat.leb 0 (maxX (getBoundingBox strayLandmarks)) = true
  /\ PrimFloat.leb (minY (getBoundingBox strayLandmarks)) 0 = true
  /\ PrimFloat.leb 0 (maxY (getBoundingBox strayLandmarks)) = true.
Proof.
  assert (H : noNaN strayLandmarks = true) by (vm_compute; reflexivity).
  assert (Hin : In (Keypoint.mk 0 0) strayLandmarks).
  { unfold strayLandmarks. apply in_or_app. right. apply in_or_app. right.
    left. reflexivity. }
  split; [exact H|]. split; [exact Hin|].
  exact (boundingBox_contains strayLandmarks (Keypoint.mk 0 0) H Hin).
Defined.


Lemma nan_landmark_fails_witness :
  noNaN nanLandmarks = false
  /\ isBoundingBoxInsideEllipse (ops := Binary64Ops) nanLandmarks 320 192 192 148.8 = false
  /\ (forall k, In k nanLandmarks ->
        PrimFloat.is_nan (Keypoint.x k) = true \/ PrimFloat.is_nan (Keypoint.y k) = true ->
        isInsideEllipse (ops := Binary64Ops) (Keypoint.x k) (Keypoint.y k)
          320 192 192 148.8 = false)
  /\ (countInside (ops := Binary64Ops) nanLandmarks 320 192 192 148.8
      < length nanLandmarks)%nat.
Proof.
  assert (H : noNaN nanLandmarks = false) by (vm_compute; reflexivity).
  split; [exact H|].
  exact (@nan_landmark_fails Binary64Ops Binary64Ops_pow2_nan
           nanLandmarks 320 192 192 148.8 H)%float.
Defined.

Lemma signals_coherent_witness :
  Reachable (ops := Binary64Ops) defaultProps calibrated
  /\ (lastGoodVisualRef calibrated = true <-> (0 < goodStreakRef calibrated)%Z)
  /\ (lastGoodVisualRef calibrated = true ->
      lastDistanceStatusRef calibrated = Some ok /\ badStreakRef calibrated = 0%Z)
  /\ (lastCaptureAllowedRef calibrated = true ->
      lastDistanceStatusRef calibrated = Some ok).
Proof.
  split; [exact calibrated_Reachable|].
  exact (@signals_coherent Binary64Ops defaultProps calibrated calibrated_Reachable).
Defined.

Lemma signals_disagree_in_dead_zone_witness :
  let r := after (repeat (faceFrame 40) 6 ++ [strayFrame None]) in
  Reachable (ops := Binary64Ops) defaultProps r
  /\ lastCaptureAllowedRef r = true
  /\ lastGoodVisualRef r = false
  /\ (1 <= badStreakRef r < minFramesOut defaultProps)%Z
  /\ goodStreakRef r = 0%Z.
Proof.
  set (r := after (repeat (faceFrame 40) 6 ++ [strayFrame None])).
  assert (Hr : Reachable (ops := Binary64Ops) defaultProps r)
    by (apply Reachable_runFrames; constructor).
  assert (Ht : lastCaptureAllowedRef r = true) by (vm_compute; reflexivity).
  assert (Hf : lastGoodVisualRef r = false) by (vm_compute; reflexivity).
  assert (Hi : (1 <= minFramesIn defaultProps)%Z) by (vm_compute; discriminate).
  assert (Ho : (1 <= minFramesOut defaultProps)%Z) by (vm_compute; discriminate).
  split; [exact Hr|]. split; [exact Ht|]. split; [exact Hf|].
  exact (proj1 (proj2 (proj2
           (@signals_disagree_in_dead_zone Binary64Ops defaultProps r Hr Hi Ho)))
           Ht Hf).
Defined.

Lemma enough_good_frames_allow_witness :
  let frs := repeat (faceFrame 40) 6 in
  Processes (ops := Binary64Ops) defaultProps initialRefs frs
    (runResults (ops := Binary64Ops) defaultProps initialRefs frs) (after frs)
  /\ goodStreakRef (after frs) = (goodStreakRef initialRefs + Z.of_nat (length frs))%Z
  /\ lastCaptureAllowedRef (after frs) = true.
Proof.
  set (frs := repeat (faceFrame 40) 6).
  assert (HP : Processes (ops := Binary64Ops) defaultProps initialRefs frs
                 (runResults (ops := Binary64Ops) defaultProps initialRefs frs) (after frs))
    by (apply Processes_run; vm_compute; reflexivity).
  assert (Hne : frs <> []) by (vm_compute; discriminate).
  assert (HF : Forall (fun res => isGoodNow res = true)
                 (runResults (ops := Binary64Ops) defaultProps initialRefs frs)).
  { apply Forall_of_forallb with (f := isGoodNow); [auto|]. vm_compute; reflexivity. }
  assert (Hge : (minFramesIn defaultProps
                 <= goodStreakRef initialRefs + Z.of_nat (length frs))%Z)
    by (vm_compute; discriminate).
  split; [exact HP|].
  exact (@enough_good_frames_allow Binary64Ops defaultProps _ _ _ _ HP Hne HF Hge).
Defined.

Lemma enough_bad_frames_forbid_witness :
  let r := after (repeat (faceFrame 40) 6) in
  let frs := repeat (strayFrame None) 3 in
  Processes (ops := Binary64Ops) defaultProps r frs
    (runResults (ops := Binary64Ops) defaultProps r frs)
    (runFrames (ops := Binary64Ops) defaultProps r frs)
  /\ lastCaptureAllowedRef r = true
  /\ badStreakRef (runFrames (ops := Binary64Ops) defaultProps r frs)
     = (badStreakRef r + Z.of_nat (length frs))%Z
  /\ lastCaptureAllowedRef (runFrames (ops := Binary64Ops) defaultProps r frs) = false.
Proof.
  set (r := after (repeat (faceFrame 40) 6)).
  set (frs := repeat (strayFrame None) 3).
  assert (Hi : (1 <= minFramesIn defaultProps)%Z) by (vm_compute; discriminate).
  assert (HP : Processes (ops := Binary64Ops) defaultProps r frs
                 (runResults (ops := Binary64Ops) defaultProps r frs)
                 (runFrames (ops := Binary64Ops) defaultProps r frs))
    by (apply Processes_run; vm_compute; reflexivity).
  assert (Hne : frs <> []) by (vm_compute; discriminate).
  assert (HF : Forall (fun res => isGoodNow res = false)
                 (runResults (ops := Binary64Ops) defaultProps r frs)).
  { apply Forall_of_forallb with (f := fun res => negb (isGoodNow res)).
    - intros x Hx. now apply negb_true_iff in Hx.
    - vm_compute; reflexivity. }
  assert (Hge : (minFramesOut defaultProps
                 <= badStreakRef r + Z.of_nat (length frs))%Z)
    by (vm_compute; discriminate).
  split; [exact HP|]. split; [vm_compute; reflexivity|].
  exact (@enough_bad_frames_forbid Binary64Ops defaultProps _ _ _ _ Hi HP Hne HF Hge).
Defined.

Lemma no_early_allow_witness :
  let frs := repeat (faceFrame 40) 5 in
  Processes (ops := Binary64Ops) defaultProps initialRefs frs
    (runResults (ops := Binary64Ops) defaultProps initialRefs frs) (after frs)
  /\ lastCaptureAllowedRef (after frs) = false
  /\ Forall (fun res => captureAllowed res = false)
       (runResults (ops := Binary64Ops) defaultProps initialRefs frs).
Proof.
  set (frs := repeat (faceFrame 40) 5).
  assert (HP : Processes (ops := Binary64Ops) defaultProps initialRefs frs
                 (runResults (ops := Binary64Ops) defaultProps initialRefs frs) (after frs))
    by (apply Processes_run; vm_compute; reflexivity).
  assert (Hg : (0 <= goodStreakRef initialRefs)%Z) by (vm_compute; discriminate).
  assert (Hb : (0 <= badStreakRef initialRefs)%Z) by (vm_compute; discriminate).
  assert (Hlt : (goodStreakRef initialRefs + Z.of_nat (length frs)
                 < minFramesIn defaultProps)%Z)
    by (vm_compute; reflexivity).
  split; [exact HP|].
  exact (@no_early_allow Binary64Ops defaultProps _ _ _ _ HP eq_refl Hg Hb Hlt).
Defined.

Lemma no_early_forbid_witness :
  let r := after (repeat (faceFrame 40) 6) in
  let frs := repeat (strayFrame None) 2 in
  Processes (ops := Binary64Ops) defaultProps r frs
    (runResults (ops := Binary64Ops) defaultProps r frs)
    (runFrames (ops := Binary64Ops) defaultProps r frs)
  /\ Forall (fun res => isGoodNow res = false)
       (runResults (ops := Binary64Ops) defaultProps r frs)
  /\ lastCaptureAllowedRef (runFrames (ops := Binary64Ops) defaultProps r frs) = true
  /\ Forall (fun res => captureAllowed res = true)
       (runResults (ops := Binary64Ops) defaultProps r frs).
Proof.
  set (r := after (repeat (faceFrame 40) 6)).
  set (frs := repeat (strayFrame None) 2).
  assert (HP : Processes (ops := Binary64Ops) defaultProps r frs
                 (runResults (ops := Binary64Ops) defaultProps r frs)
                 (runFrames (ops := Binary64Ops) defaultProps r frs))
    by (apply Processes_run; vm_compute; reflexivity).
  assert (Hl : lastCaptureAllowedRef r = true) by (vm_compute; reflexivity).
  assert (Hg : (0 <= goodStreakRef r)%Z) by (vm_compute; discriminate).
  assert (Hb : (0 <= badStreakRef r)%Z) by (vm_compute; discriminate).
  assert (Hlt : (badStreakRef r + Z.of_nat (length frs) < minFramesOut defaultProps)%Z)
    by (vm_compute; reflexivity).
  assert (HB : Forall (fun res => isGoodNow res = false)
                 (runResults (ops := Binary64Ops) defaultProps r frs)).
  { apply Forall_of_forallb with (f := fun res => negb (isGoodNow res)).
    - intros x Hx. now apply negb_true_iff in Hx.
    - vm_compute; reflexivity. }
  assert (HF : Forall (fun res => seen res <> None /\ statusOf res = ok)
                 (runResults (ops := Binary64Ops) defaultProps r frs)).
  { apply Forall_of_forallb
      with (f := fun res =>
                   match seen res with
                   | Some f => DistanceStatus_eqb (distanceStatus f) ok
                   | None => false
                   end).
    - intros x Hx. unfold statusOf. destruct (seen x) as [f|]; [|discriminate].
      split; [discriminate|]. now destruct (distanceStatus f).
    - vm_compute; reflexivity. }
  split; [exact HP|]. split; [exact HB|].
  exact (@no_early_forbid Binary64Ops defaultProps _ _ _ _ HP Hl Hg Hb Hlt HF).
Defined.

Lemma calibrating_across_gaps_witness :
  Processes (ops := Binary64Ops) defaultProps initialRefs gapFrames
    (runResults (ops := Binary64Ops) defaultProps initialRefs gapFrames) (after gapFrames)
  /\ countFaces (runResults (ops := Binary64Ops) defaultProps initialRefs gapFrames) = 8%nat
  /\ calibratingStreakRef (after gapFrames) = 8%Z
  /\ baselineEyePxRef (after gapFrames) <> None.
Proof.
  assert (HP : Processes (ops := Binary64Ops) defaultProps initialRefs gapFrames
                 (runResults (ops := Binary64Ops) defaultProps initialRefs gapFrames)
                 (after gapFrames))
    by (apply Processes_run; vm_compute; reflexivity).
  assert (HF : Forall (fun res =>
                         match seen res with
                         | Some f => geometryOk f = true
                         | None => (lostStreakRef (refs res) < LOST_RESET_STREAK)%Z
                         end)
                 (runResults (ops := Binary64Ops) defaultProps initialRefs gapFrames)).
  { apply Forall_of_forallb
      with (f := fun res =>
                   match seen res with
                   | Some f => geometryOk f
                   | None => (lostStreakRef (refs res) <? LOST_RESET_STREAK)%Z
                   end).
    - intros x Hx. destruct (seen x); [exact Hx | now apply Z.ltb_lt].
    - vm_compute; reflexivity. }
  assert (Hn : countFaces (runResults (ops := Binary64Ops) defaultProps initialRefs gapFrames)
               = 8%nat)
    by (vm_compute; reflexivity).
  destruct (@calibrating_across_gaps Binary64Ops defaultProps _ _ _ _
              (Reachable_init defaultProps) HP HF) as [Ec Eb].
  rewrite Hn in Ec.
  split; [exact HP|]. split; [exact Hn|]. split; [exact Ec|].
  apply Eb. rewrite Ec. vm_compute; discriminate.
Defined.

Lemma lost_across_bad_faces_witness :
  Processes (ops := Binary64Ops) defaultProps calibrated flickerFrames
    (runResults (ops := Binary64Ops) defaultProps calibrated flickerFrames)
    (runFrames (ops := Binary64Ops) defaultProps calibrated flickerFrames)
  /\ baselineEyePxRef calibrated = Some 40%float
  /\ countNoFaces (runResults (ops := Binary64Ops) defaultProps calibrated flickerFrames)
     = 12%nat
  /\ lostStreakRef (runFrames (ops := Binary64Ops) defaultProps calibrated flickerFrames)
     = 12%Z
  /\ baselineEyePxRef (runFrames (ops := Binary64Ops) defaultProps calibrated flickerFrames)
     = None
  /\ calibratingStreakRef (runFrames (ops := Binary64Ops) defaultProps calibrated flickerFrames)
     = 0%Z.
Proof.
  assert (HP : Processes (ops := Binary64Ops) defaultProps calibrated flickerFrames
                 (runResults (ops := Binary64Ops) defaultProps calibrated flickerFrames)
                 (runFrames (ops := Binary64Ops) defaultProps calibrated flickerFrames))
    by (apply Processes_run; vm_compute; reflexivity).
  assert (HF : Forall (fun res =>
                         match seen res with
                         | Some f => geometryOk f = false
                         | None => True
                         end)
                 (runResults (ops := Binary64Ops) defaultProps calibrated flickerFrames)).
  { apply Forall_of_forallb
      with (f := fun res =>
                   match seen res with
                   | Some f => negb (geometryOk f)
                   | None => true
                   end).
    - intros x Hx. destruct (seen x); [now apply negb_true_iff in Hx | exact I].
    - vm_compute; reflexivity. }
  assert (Hn : countNoFaces
                 (runResults (ops := Binary64Ops) defaultProps calibrated flickerFrames)
               = 12%nat)
    by (vm_compute; reflexivity).
  assert (H0 : lostStreakRef calibrated = 0%Z) by (vm_compute; reflexivity).
  destruct (@lost_across_bad_faces Binary64Ops defaultProps _ _ _ _
              calibrated_Reachable HP HF) as [El Eb].
  rewrite Hn, H0 in El. change (0 + Z.of_nat 12)%Z with 12%Z in El.
  assert (Hge : (LOST_RESET_STREAK
                 <= lostStreakRef
                      (runFrames (ops := Binary64Ops) defaultProps calibrated flickerFrames))%Z)
    by (rewrite El; vm_compute; discriminate).
  destruct (Eb Hge) as [Eb1 Eb2].
  split; [exact HP|]. split; [vm_compute; reflexivity|]. split; [exact Hn|].
  split; [exact El|]. split; [exact Eb1 | exact Eb2].
Defined.

Lemma nan_distance_is_ok_witness :
  let res := sample defaultProps initialRefs nanFrame in
  detect (ops := Binary64Ops) defaultProps initialRefs nanFrame = Processed res
  /\ PrimFloat.is_nan (eyeDistance (sampleLocals res)) = true
  /\ PrimFloat.is_nan (relativeEyeDistance (sampleLocals res)) = true
  /\ distanceStatus (sampleLocals res) = ok.
Proof.
  set (res := sample defaultProps initialRefs nanFrame).
  assert (H : detect (ops := Binary64Ops) defaultProps initialRefs nanFrame = Processed res)
    by (vm_compute; reflexivity).
  assert (Hs : seen res = Some (sampleLocals res)) by (vm_compute; reflexivity).
  assert (Hn : PrimFloat.is_nan (eyeDistance (sampleLocals res)) = true)
    by (vm_compute; reflexivity).
  split; [exact H|]. split; [exact Hn|].
  exact (proj1 (@nan_distance_is_ok Binary64Ops defaultProps _ _ _ _ H Hs) Hn).
Defined.

